(** * The CentOS provisioner of libmachine/provision

    A shallow embedding of the two revisions of the CentOS provisioning
    strategy (package [provision]) and the properties of its bootstrap
    sequence, package translator, readiness probe and configuration
    renderer.

    - [Part000] embeds the revision that carries engine options and renders
      the daemon configuration through a text template.
    - [CentosGo] embeds libmachine/provision/centos.go, the revision that
      renders the daemon configuration with [fmt.Sprintf].

    Remote effects are modelled by a log of the calls made to the external
    collaborators together with an oracle that decides, from the log so
    far, whether the next call fails. *)

From Stdlib Require Import String Ascii List ZArith Lia Bool DecimalString.
From Stdlib Require DecimalZ.
Import ListNotations.

Open Scope string_scope.
Open Scope list_scope.

(** ** Strings as Go builds them *)

(** String concatenation; [fmt.Sprintf] with [%s] verbs is written with it. *)
Notation "a +++ b" := (String.append a b) (at level 60, right associativity).

(** The line feed that ends each line of a Go string literal. *)
Definition nl : string := String (ascii_of_nat 10) EmptyString.

(** The double quote character, escaped inside the Go literals. *)
Definition dq : string := String (ascii_of_nat 34) EmptyString.

(** Decimal rendering of a Go [int], as the [%d] verb and the template
    engine print it. *)
Definition itoa (z : Z) : string := NilZero.string_of_int (Z.to_int z).

(** [{{ range xs }}body{{ end }}]: the body is rendered once per element,
    in order, and the pieces are concatenated; an empty list renders
    nothing. *)
Fixpoint range (xs : list string) (body : string -> string) : string :=
  match xs with
  | [] => ""
  | x :: rest => body x +++ range rest body
  end.

(** [Substring s t]: the text [s] occurs in [t]. *)
Definition Substring (s t : string) : Prop :=
  exists before after, t = before +++ s +++ after.

(** Executable search for an occurrence of [s] in [t]. *)
Fixpoint contains (s t : string) : bool :=
  String.prefix s t ||
  match t with
  | EmptyString => false
  | String _ t' => contains s t'
  end.

(** ** The packages the provisioner imports

    Only the declarations the provisioner reads are given; the structs
    themselves live in sibling packages. *)

Module drivers.
(** The [drivers.Driver] interface, as the two getters used here. *)
Record Driver : Type := {
  DriverName : string;
  GetMachineName : string
}.
End drivers.

Module auth.
(** The remote paths of [auth.AuthOptions] that the renderer reads. *)
Record AuthOptions : Type := {
  CaCertRemotePath : string;
  ServerCertRemotePath : string;
  ServerKeyRemotePath : string
}.
End auth.

Module engine.
(** The fields of [engine.EngineOptions] that the template reads. *)
Record EngineOptions : Type := {
  StorageDriver : string;
  Labels : list string;
  InsecureRegistry : list string;
  RegistryMirror : list string;
  ArbitraryFlags : list string
}.

(** Assignment to the [Labels] field. *)
Definition set_Labels (e : EngineOptions) (ls : list string) : EngineOptions :=
  {| StorageDriver := StorageDriver e;
     Labels := ls;
     InsecureRegistry := InsecureRegistry e;
     RegistryMirror := RegistryMirror e;
     ArbitraryFlags := ArbitraryFlags e |}.
End engine.

Module swarm.
(** [swarm.SwarmOptions] is passed through to the swarm configuration
    step and never inspected by the provisioner. *)
Record SwarmOptions : Type := {
  settings : list (string * string)
}.
End swarm.

Module pkgaction.
(** The closed set of package actions. *)
Inductive PackageAction : Type := Install | Remove | Upgrade.
End pkgaction.

(** The host identification read by the detector. *)
Record OsRelease : Type := {
Id : string;
Version : string;
IdLike : string
}.

(** The rendered artifact: configuration text and its remote path. *)
Module DockerOptions.
Record t : Type := {
  EngineOptions : string;
  EngineOptionsPath : string
}.
End DockerOptions.

(** What a pointer dereference yields: a value, or the run-time panic of a
  nil pointer. *)
Inductive deref (A : Type) : Type :=
| Returns (a : A)
| Panics.
Arguments Returns {A} a.
Arguments Panics {A}.

(** ** Remote effects *)

(** Go [error] values reaching the provisioner: whatever a collaborator
  reported, or the poller giving up. *)
Inductive error : Type :=
| CommandExecutionError (cause : string)
| ReadinessTimeoutError.

(** One call made to an external collaborator. *)
Inductive Event : Type :=
| RunSSHCommandFromDriver (args : string)
| Call_installDockerGeneric
| Call_makeDockerOptionsDir
| Call_ConfigureAuth
| Call_configureSwarm.

Definition Event_eq_dec (a b : Event) : {a = b} + {a <> b}.
Proof. decide equality. apply string_dec. Defined.

(** The outcome of a call, given the calls made before it: [None] is a nil
  error. *)
Definition Oracle : Type := list Event -> Event -> option error.

Section Effects.
(** [P] is the provisioner struct behind the pointer receiver. *)
Variable P : Type.

(** The state a method acts on: the receiver and the log of calls. *)
Record St : Type := mkSt {
  self : P;
  log : list Event
}.

(** A method body: it may update the state and returns a value or the
    error it stopped at. *)
Definition M (A : Type) : Type := St -> St * (error + A).

Definition ret {A} (a : A) : M A := fun st => (st, inr a).

Definition fail {A} (e : error) : M A := fun st => (st, inl e).

(** [if err != nil { return err }] *)
Definition bind {A B} (c : M A) (k : A -> M B) : M B :=
  fun st =>
    match c st with
    | (st', inl e) => (st', inl e)
    | (st', inr a) => k a st'
    end.

Definition get_self : M P := fun st => (st, inr (self st)).

Definition set_self (p : P) : M unit :=
  fun st => (mkSt p (log st), inr tt).

Variable respond : Oracle.

(** A call to a collaborator: it is logged, and the oracle decides its
    error. *)
Definition call (ev : Event) : M unit :=
  fun st =>
    let st' := mkSt (self st) (log st ++ [ev]) in
    match respond (log st) ev with
    | Some e => (st', inl e)
    | None => (st', inr tt)
    end.

(** [for _, x := range xs { if err := body(x); err != nil { return err } }] *)
Fixpoint forEach {A} (xs : list A) (body : A -> M unit) : M unit :=
  match xs with
  | [] => ret tt
  | x :: rest => bind (body x) (fun _ => forEach rest body)
  end.

(** Modelled from the spec: [utils.WaitFor], the readiness poller, which
    is not part of the provisioner file.  It invokes the probe
    repeatedly, succeeds as soon as the probe answers true, and gives up
    with [ReadinessTimeoutError] once the bound on the wait is reached;
    the bound is counted in probe attempts. *)
Fixpoint WaitFor (maxAttempts : nat) (probe : M bool) : M unit :=
  match maxAttempts with
  | O => fail ReadinessTimeoutError
  | S n =>
      bind probe (fun ready => if ready then ret tt else WaitFor n probe)
  end.
End Effects.

Arguments mkSt {P} _ _.
Arguments self {P} _.
Arguments log {P} _.
Arguments ret {P A} _ _.
Arguments fail {P A} _ _.
Arguments bind {P A B} _ _ _.
Arguments get_self {P} _.
Arguments set_self {P} _ _.
Arguments call {P} _ _ _.
Arguments forEach {P A} _ _ _.
Arguments WaitFor {P} _ _ _.

Notation "x <- c ;; k" := (bind c (fun x => k))
  (at level 61, c at next level, right associativity).
Notation "c ;;; k" := (bind c (fun _ => k))
  (at level 61, right associativity).

(** ** Zero values of the imported structs *)

Definition auth_zero : auth.AuthOptions :=
  {| auth.CaCertRemotePath := "";
     auth.ServerCertRemotePath := "";
     auth.ServerKeyRemotePath := "" |}.

Definition engine_zero : engine.EngineOptions :=
  {| engine.StorageDriver := "";
     engine.Labels := [];
     engine.InsecureRegistry := [];
     engine.RegistryMirror := [];
     engine.ArbitraryFlags := [] |}.

Definition swarm_zero : swarm.SwarmOptions :=
  {| swarm.settings := [] |}.

(** ** The command lines shared by both revisions *)

(** The rewrite of the sudoers file that lifts the tty requirement. *)
Definition sudoersFixCommand : string :=
  "-t sed -i 's/^Defaults.*requiretty$/#\ commented\ out\ by\ docker\ machine\n#Defaults\ \ \ \ requiretty/g' /etc/sudoers".

(** The firewalld service definition for the daemon port and the restart
    of the firewall. *)
Definition firewalldCommand : string :=
  "printf '<?xml version=" +++ dq +++ "1.0" +++ dq +++ " encoding=" +++ dq
  +++ "utf-8" +++ dq +++ "?>" +++ nl
  +++ "<service>" +++ nl
  +++ "  <short>Docker Daemon</short>" +++ nl
  +++ "  <port protocol=" +++ dq +++ "tcp" +++ dq +++ " port=" +++ dq
  +++ "2376" +++ dq +++ "/>" +++ nl
  +++ "</service>" +++ nl
  +++ "' > /etc/firewalld/services/docker.xml && sed -i 's/<\/zone>/  <service name=\"
  +++ dq +++ "docker\" +++ dq
  +++ "\/>\n<\/zone>/g' /etc/firewalld/zones/public.xml && service firewalld restart".

(** The command of the readiness probe. *)
Definition dockerVersionCommand : string := "sudo docker version".

(** ** The revision with engine options and a templated configuration *)

Module Part000.

Record CentosProvisioner : Type := {
  packages : list string;
  OsReleaseInfo : option OsRelease;
  Driver : drivers.Driver;
  AuthOptions : auth.AuthOptions;
  EngineOptions : engine.EngineOptions;
  SwarmOptions : swarm.SwarmOptions
}.

Definition set_OsReleaseInfo (p : CentosProvisioner) (v : option OsRelease) :=
  {| packages := packages p; OsReleaseInfo := v; Driver := Driver p;
     AuthOptions := AuthOptions p; EngineOptions := EngineOptions p;
     SwarmOptions := SwarmOptions p |}.

Definition set_AuthOptions (p : CentosProvisioner) (v : auth.AuthOptions) :=
  {| packages := packages p; OsReleaseInfo := OsReleaseInfo p;
     Driver := Driver p; AuthOptions := v; EngineOptions := EngineOptions p;
     SwarmOptions := SwarmOptions p |}.

Definition set_EngineOptions (p : CentosProvisioner) (v : engine.EngineOptions) :=
  {| packages := packages p; OsReleaseInfo := OsReleaseInfo p;
     Driver := Driver p; AuthOptions := AuthOptions p; EngineOptions := v;
     SwarmOptions := SwarmOptions p |}.

Definition set_SwarmOptions (p : CentosProvisioner) (v : swarm.SwarmOptions) :=
  {| packages := packages p; OsReleaseInfo := OsReleaseInfo p;
     Driver := Driver p; AuthOptions := AuthOptions p;
     EngineOptions := EngineOptions p; SwarmOptions := v |}.

(** The factory registered under the name Centos: one baseline package,
    every other field at its zero value. *)
Definition NewCentosProvisioner (d : drivers.Driver) : CentosProvisioner :=
  {| packages := ["curl"];
     OsReleaseInfo := None;
     Driver := d;
     AuthOptions := auth_zero;
     EngineOptions := engine_zero;
     SwarmOptions := swarm_zero |}.

(** The value handed to the template. *)
Module EngineConfigContext.
Record t : Type := {
  DockerPort : Z;
  AuthOptions : auth.AuthOptions;
  EngineOptions : engine.EngineOptions
}.
End EngineConfigContext.

(** [engineConfigTmpl] executed on a context: literal text is copied,
    a field action prints the field, a range action repeats its body. *)
Definition engineConfigTmpl (ctx : EngineConfigContext.t) : string :=
  nl +++ "OPTIONS='" +++ nl
  +++ "-H tcp://0.0.0.0:" +++ itoa (EngineConfigContext.DockerPort ctx) +++ nl
  +++ "-H unix:///var/run/docker.sock" +++ nl
  +++ "--storage-driver "
  +++ engine.StorageDriver (EngineConfigContext.EngineOptions ctx) +++ nl
  +++ "--tlsverify" +++ nl
  +++ "--tlscacert "
  +++ auth.CaCertRemotePath (EngineConfigContext.AuthOptions ctx) +++ nl
  +++ "--tlscert "
  +++ auth.ServerCertRemotePath (EngineConfigContext.AuthOptions ctx) +++ nl
  +++ "--tlskey "
  +++ auth.ServerKeyRemotePath (EngineConfigContext.AuthOptions ctx) +++ nl
  +++ range (engine.Labels (EngineConfigContext.EngineOptions ctx))
        (fun x => "--label " +++ x +++ nl)
  +++ range (engine.InsecureRegistry (EngineConfigContext.EngineOptions ctx))
        (fun x => "--insecure-registry " +++ x +++ nl)
  +++ range (engine.RegistryMirror (EngineConfigContext.EngineOptions ctx))
        (fun x => "--registry-mirror " +++ x +++ nl)
  +++ range (engine.ArbitraryFlags (EngineConfigContext.EngineOptions ctx))
        (fun x => "--" +++ x +++ nl)
  +++ nl +++ "'" +++ nl.

(** [GenerateDockerOptions]: the receiver is behind a pointer, so the
    assignment to its label list outlives the call; the updated receiver is
    returned next to the result.  The template is a constant that parses,
    so the error branch of the parse is never taken. *)
Definition GenerateDockerOptions (provisioner : CentosProvisioner)
    (dockerPort : Z) : CentosProvisioner * (error + DockerOptions.t) :=
  let driverNameLabel :=
    "provider=" +++ drivers.DriverName (Driver provisioner) in
  let provisioner :=
    set_EngineOptions provisioner
      (engine.set_Labels (EngineOptions provisioner)
         (engine.Labels (EngineOptions provisioner) ++ [driverNameLabel])) in
  let engineConfigContext :=
    {| EngineConfigContext.DockerPort := dockerPort;
       EngineConfigContext.AuthOptions := AuthOptions provisioner;
       EngineConfigContext.EngineOptions := EngineOptions provisioner |} in
  let engineCfg := engineConfigTmpl engineConfigContext in
  let daemonOptsDir := "/etc/sysconfig/docker" in
  (provisioner,
   inr {| DockerOptions.EngineOptions := engineCfg;
          DockerOptions.EngineOptionsPath := daemonOptsDir |}).

Definition GetDockerOptionsDir (provisioner : CentosProvisioner) : string :=
  "/etc/default/docker".

(** [CompatibleWithHost] reads through the [OsReleaseInfo] pointer without
    a nil check. *)
Definition CompatibleWithHost (provisioner : CentosProvisioner) : deref bool :=
  match OsReleaseInfo provisioner with
  | None => Panics
  | Some info => Returns (String.eqb (Id info) "centos")
  end.

Definition SetOsReleaseInfo (provisioner : CentosProvisioner)
    (info : option OsRelease) : CentosProvisioner :=
  set_OsReleaseInfo provisioner info.

Definition GetAuthOptions (provisioner : CentosProvisioner) : auth.AuthOptions :=
  AuthOptions provisioner.

Definition GetDriver (provisioner : CentosProvisioner) : drivers.Driver :=
  Driver provisioner.

Section Methods.

(** The command channel of the run. *)
Variable respond : Oracle.

(** The attempt bound of the poller. *)
Variable maxAttempts : nat.

(** [strconv.Quote], behind the [%q] verb. *)
Variable Quote : string -> string.

(** [setRemoteAuthOptions], the shared helper that resolves the auth
    options against the live host. *)
Variable setRemoteAuthOptions : CentosProvisioner -> auth.AuthOptions.

Definition SSHCommand (args : string) : M CentosProvisioner unit :=
  call respond (RunSSHCommandFromDriver args).

Definition Package (name : string) (action : pkgaction.PackageAction)
    : M CentosProvisioner unit :=
  let packageAction :=
    match action with
    | pkgaction.Install => "install"
    | pkgaction.Remove => "remove"
    | pkgaction.Upgrade => "upgrade"
    end in
  let command := "sudo -E yum -y " +++ packageAction +++ " " +++ name in
  SSHCommand command.

Definition dockerDaemonResponding : M CentosProvisioner bool :=
  fun st =>
    match SSHCommand dockerVersionCommand st with
    | (st', inl err) => (st', inr false)
    | (st', inr _) => (st', inr true)
    end.

Definition SetHostname (hostname : string) : M CentosProvisioner unit :=
  SSHCommand ("sudo hostname " +++ hostname +++ " && echo "
              +++ Quote hostname +++ " | sudo tee /etc/hostname") ;;;
  SSHCommand ("sudo sed -i '/^127.0.0.1/ s/$/ " +++ hostname
              +++ "/' /etc/hosts").

Definition Provision (swarmOptions : swarm.SwarmOptions)
    (authOptions : auth.AuthOptions) (engineOptions : engine.EngineOptions)
    : M CentosProvisioner unit :=
  provisioner <- get_self ;;
  set_self (set_EngineOptions
              (set_AuthOptions (set_SwarmOptions provisioner swarmOptions)
                 authOptions) engineOptions) ;;;
  SSHCommand sudoersFixCommand ;;;
  provisioner <- get_self ;;
  SetHostname (drivers.GetMachineName (Driver provisioner)) ;;;
  SSHCommand "yum -y update" ;;;
  provisioner <- get_self ;;
  forEach (packages provisioner)
    (fun pkg => Package pkg pkgaction.Install) ;;;
  SSHCommand firewalldCommand ;;;
  call respond Call_installDockerGeneric ;;;
  WaitFor maxAttempts dockerDaemonResponding ;;;
  call respond Call_makeDockerOptionsDir ;;;
  provisioner <- get_self ;;
  set_self (set_AuthOptions provisioner (setRemoteAuthOptions provisioner)) ;;;
  call respond Call_ConfigureAuth ;;;
  call respond Call_configureSwarm.

End Methods.

End Part000.

(** ** libmachine/provision/centos.go *)

Module CentosGo.

Record CentosProvisioner : Type := {
  packages : list string;
  OsReleaseInfo : option OsRelease;
  Driver : drivers.Driver;
  SwarmOptions : swarm.SwarmOptions
}.

Definition set_OsReleaseInfo (p : CentosProvisioner) (v : option OsRelease) :=
  {| packages := packages p; OsReleaseInfo := v; Driver := Driver p;
     SwarmOptions := SwarmOptions p |}.

Definition NewCentosProvisioner (d : drivers.Driver) : CentosProvisioner :=
  {| packages := ["curl"];
     OsReleaseInfo := None;
     Driver := d;
     SwarmOptions := swarm_zero |}.

Definition GetDockerOptionsDir (provisioner : CentosProvisioner) : string :=
  "/etc/default/docker".

Definition CompatibleWithHost (provisioner : CentosProvisioner) : deref bool :=
  match OsReleaseInfo provisioner with
  | None => Panics
  | Some info => Returns (String.eqb (Id info) "centos")
  end.

Definition SetOsReleaseInfo (provisioner : CentosProvisioner)
    (info : option OsRelease) : CentosProvisioner :=
  set_OsReleaseInfo provisioner info.

Definition GetDriver (provisioner : CentosProvisioner) : drivers.Driver :=
  Driver provisioner.

Section Methods.

Variable respond : Oracle.
Variable maxAttempts : nat.
Variable Quote : string -> string.

(** [getDefaultDaemonOpts], the shared helper that renders the TLS flags
    and the provider label from the driver name and the auth options. *)
Variable getDefaultDaemonOpts : string -> auth.AuthOptions -> string.

Definition SSHCommand (args : string) : M CentosProvisioner unit :=
  call respond (RunSSHCommandFromDriver args).

(** The switch has no case for [Upgrade]: the verb keeps the zero value of
    a string. *)
Definition Package (name : string) (action : pkgaction.PackageAction)
    : M CentosProvisioner unit :=
  let packageAction :=
    match action with
    | pkgaction.Install => "install"
    | pkgaction.Remove => "remove"
    | _ => ""
    end in
  let command := "sudo -E yum -y " +++ packageAction +++ " " +++ name in
  SSHCommand command.

Definition dockerDaemonResponding : M CentosProvisioner bool :=
  fun st =>
    match SSHCommand dockerVersionCommand st with
    | (st', inl err) => (st', inr false)
    | (st', inr _) => (st', inr true)
    end.

Definition SetHostname (hostname : string) : M CentosProvisioner unit :=
  SSHCommand ("sudo hostname " +++ hostname +++ " && echo "
              +++ Quote hostname +++ " | sudo tee /etc/hostname") ;;;
  SSHCommand ("sudo sed -i '/^127.0.0.1/ s/$/ " +++ hostname
              +++ "/' /etc/hosts").

Definition Provision (swarmOptions : swarm.SwarmOptions)
    (authOptions : auth.AuthOptions) : M CentosProvisioner unit :=
  SSHCommand sudoersFixCommand ;;;
  provisioner <- get_self ;;
  SetHostname (drivers.GetMachineName (Driver provisioner)) ;;;
  SSHCommand "yum -y update" ;;;
  provisioner <- get_self ;;
  forEach (packages provisioner)
    (fun pkg => Package pkg pkgaction.Install) ;;;
  SSHCommand firewalldCommand ;;;
  call respond Call_installDockerGeneric ;;;
  WaitFor maxAttempts dockerDaemonResponding ;;;
  call respond Call_ConfigureAuth ;;;
  call respond Call_configureSwarm.

Definition GenerateDockerOptions (provisioner : CentosProvisioner)
    (dockerPort : Z) (authOptions : auth.AuthOptions)
    : CentosProvisioner * (error + DockerOptions.t) :=
  let defaultDaemonOpts :=
    getDefaultDaemonOpts (drivers.DriverName (Driver provisioner))
      authOptions in
  let daemonOpts :=
    "--host=unix:///var/run/docker.sock --host=tcp://0.0.0.0:"
    +++ itoa dockerPort in
  let daemonOptsDir := "/etc/sysconfig/docker" in
  let daemonCfg :=
    "OPTIONS='" +++ defaultDaemonOpts +++ " " +++ daemonOpts +++ "'" in
  (provisioner,
   inr {| DockerOptions.EngineOptions := daemonCfg;
          DockerOptions.EngineOptionsPath := daemonOptsDir |}).

End Methods.

End CentosGo.

(** ** The bootstrap sequence as the design states it

    A linear sequence of gated calls: each call is made only if the one
    before it returned no error, and the first error ends the run.  The
    readiness wait sits between two such sequences and repeats one probe
    call, whose failure only means that the daemon is not ready yet. *)

Section Design.

Variable respond : Oracle.

(** The gated calls [evs], made from log [tr]: the log at the end and the
    error the run stopped at, if any. *)
Fixpoint spec_gates (evs : list Event) (tr : list Event)
    : list Event * option error :=
  match evs with
  | [] => (tr, None)
  | ev :: rest =>
      match respond tr ev with
      | Some e => (tr ++ [ev], Some e)
      | None => spec_gates rest (tr ++ [ev])
      end
  end.

(** At most [n] probe calls: the log at the end and whether a probe
    succeeded. *)
Fixpoint spec_poll (probe : Event) (n : nat) (tr : list Event)
    : list Event * bool :=
  match n with
  | O => (tr, false)
  | S m =>
      match respond tr probe with
      | None => (tr ++ [probe], true)
      | Some _ => spec_poll probe m (tr ++ [probe])
      end
  end.

(** Gated calls, the readiness wait, gated calls. *)
Definition spec_bootstrap (before : list Event) (probe : Event) (n : nat)
    (after : list Event) (tr : list Event) : list Event * option error :=
  match spec_gates before tr with
  | (tr1, Some e) => (tr1, Some e)
  | (tr1, None) =>
      match spec_poll probe n tr1 with
      | (tr2, false) => (tr2, Some ReadinessTimeoutError)
      | (tr2, true) => spec_gates after tr2
      end
  end.

End Design.

(** The result of a method as the design's pair of log and error. *)
Definition outcome {P} (r : St P * (error + unit)) : list Event * option error :=
  (log (fst r), match snd r with inl e => Some e | inr _ => None end).

(** ** The calls of one run, in order *)

(** The probe call of the readiness wait. *)
Definition probeCall : Event := RunSSHCommandFromDriver dockerVersionCommand.

(** The command line [Package] builds for an installation. *)
Definition installCommand (name : string) : string :=
  "sudo -E yum -y " +++ "install" +++ " " +++ name.

(** The two command lines of [SetHostname]. *)
Definition hostnameCommands (Quote : string -> string) (hostname : string)
    : list string :=
  [ "sudo hostname " +++ hostname +++ " && echo " +++ Quote hostname
      +++ " | sudo tee /etc/hostname";
    "sudo sed -i '/^127.0.0.1/ s/$/ " +++ hostname +++ "/' /etc/hosts" ].

(** The calls up to and including the engine installation. *)
Definition callsBeforeWait (Quote : string -> string) (machineName : string)
    (pkgs : list string) : list Event :=
  map RunSSHCommandFromDriver
    ([sudoersFixCommand] ++ hostnameCommands Quote machineName
     ++ ["yum -y update"] ++ map installCommand pkgs ++ [firewalldCommand])
  ++ [Call_installDockerGeneric].

(** The calls after the readiness wait, per revision. *)
Definition Part000_callsAfterWait : list Event :=
  [Call_makeDockerOptionsDir; Call_ConfigureAuth; Call_configureSwarm].

Definition CentosGo_callsAfterWait : list Event :=
  [Call_ConfigureAuth; Call_configureSwarm].

(** The whole run when the wait takes [k] probes. *)
Definition Part000_schedule (Quote : string -> string)
    (p : Part000.CentosProvisioner) (k : nat) : list Event :=
  callsBeforeWait Quote (drivers.GetMachineName (Part000.Driver p))
    (Part000.packages p)
  ++ repeat probeCall k ++ Part000_callsAfterWait.

Definition CentosGo_schedule (Quote : string -> string)
    (p : CentosGo.CentosProvisioner) (k : nat) : list Event :=
  callsBeforeWait Quote (drivers.GetMachineName (CentosGo.Driver p))
    (CentosGo.packages p)
  ++ repeat probeCall k ++ CentosGo_callsAfterWait.

(** ** Properties of a log *)

(** [Prefix l1 l2]: the calls [l1] are the first calls of [l2], in the
    same order. *)
Definition Prefix (l1 l2 : list Event) : Prop :=
  exists rest, l2 = l1 ++ rest.

(** [StopsAtFailure respond probe tr0 issued r]: among the calls [issued]
    after log [tr0], a call other than the probe that fails is the last
    call, and its error is the result [r] of the run. *)
Definition StopsAtFailure (respond : Oracle) (probe : Event)
    (tr0 issued : list Event) (r : option error) : Prop :=
  forall before ev after e,
    issued = before ++ ev :: after ->
    ev <> probe ->
    respond (tr0 ++ before) ev = Some e ->
    after = [] /\ r = Some e.

(** ** The repeated flag groups as the design states them *)

(** One flag occurrence per element, each on a line of its own, in the
    order of the list; an empty list gives no text. *)
Definition spec_flagGroup (flag : string) (xs : list string) : string :=
  String.concat "" (map (fun x => flag +++ x +++ nl) xs).

(** The label that identifies the driver. *)
Definition providerLabel (d : drivers.Driver) : string :=
  "provider=" +++ drivers.DriverName d.

(** The configuration text of a result, or the empty text on an error. *)
Definition content (r : error + DockerOptions.t) : string :=
  match r with
  | inr opts => DockerOptions.EngineOptions opts
  | inl _ => ""
  end.

(** ** Sample inputs *)

(** A driver named packet for a machine named node1. *)
Definition sampleDriver : drivers.Driver :=
  {| drivers.DriverName := "packet"; drivers.GetMachineName := "node1" |}.

(** A channel on which every call succeeds. *)
Definition alwaysOk : Oracle := fun _ _ => None.

(** A channel on which the installation of curl fails and every other
    call succeeds. *)
Definition curlFails : Oracle :=
  fun _ ev =>
    if Event_eq_dec ev (RunSSHCommandFromDriver "sudo -E yum -y install curl")
    then Some (CommandExecutionError "exit status 1")
    else None.

(** Quoting of a name that needs no escape. *)
Definition quotePlain (s : string) : string := dq +++ s +++ dq.

(** A host that reports the CentOS family. *)
Definition centosRelease : OsRelease :=
  {| Id := "centos"; Version := "7"; IdLike := "rhel fedora" |}.

(** A host of another family that lists CentOS among its relatives. *)
Definition centosLikeRelease : OsRelease :=
  {| Id := "rocky"; Version := "9"; IdLike := "rhel centos fedora" |}.

(** ** The methods both revisions share word for word

    [Service] and [Hostname] read no field of the receiver but its driver,
    which stands behind the channel; they are given once, for any receiver
    type [P]. *)

(** What a command leaves on its standard output, as an [io.Reader]: the
    bytes the reader delivers and the error that ends the reading, if it
    does not end at the end of the stream. *)
Record Reader : Type := {
  delivered : string;
  readError : option error
}.

(** The standard output of a call, given the calls made before it. *)
Definition Outputs : Type := list Event -> Event -> Reader.

Section SharedMethods.

Variable P : Type.
Variable respond : Oracle.
Variable stdout : Outputs.

(** [pkgaction.ServiceAction] and its [String] method. *)
Variable ServiceAction : Type.
Variable ServiceAction_String : ServiceAction -> string.

Definition Service (name : string) (action : ServiceAction) : M P unit :=
  let command :=
    "sudo service " +++ name +++ " " +++ ServiceAction_String action in
  call respond (RunSSHCommandFromDriver command).

(** [Hostname] returns a pair of a string and an error: [None] is a nil
    error.  The buffer is filled by [ReadFrom], which reads to the end of
    the stream or to the first error. *)
Definition Hostname : St P -> St P * (string * option error) :=
  fun st =>
    let ev := RunSSHCommandFromDriver "hostname" in
    let st' := mkSt (self st) (log st ++ [ev]) in
    match respond (log st) ev with
    | Some err => (st', ("", Some err))
    | None =>
        let output := stdout (log st) ev in
        match readError output with
        | Some err => (st', ("", Some err))
        | None => (st', (delivered output, None))
        end
    end.

End SharedMethods.

Arguments Service {P} _ {ServiceAction} _ _ _ _.
Arguments Hostname {P} _ _ _.

(** ** Repeated rendering *)

(** The receiver after [n] calls of [GenerateDockerOptions] in a row with
    the same port. *)
Fixpoint Part000_GenerateDockerOptions_times (n : nat)
    (p : Part000.CentosProvisioner) (port : Z) : Part000.CentosProvisioner :=
  match n with
  | O => p
  | S m =>
      fst (Part000.GenerateDockerOptions
             (Part000_GenerateDockerOptions_times m p port) port)
  end.

(** ** More sample inputs *)

(** A channel on which the daemon never answers and every other call
    succeeds. *)
Definition neverReady : Oracle :=
  fun _ ev =>
    if Event_eq_dec ev probeCall
    then Some (CommandExecutionError "exit status 1")
    else None.

(** A standard output that always delivers the name node1 and a line
    feed. *)
Definition node1Output : Outputs :=
  fun _ _ => {| delivered := "node1" +++ nl; readError := None |}.

(** ** Counting the commands of a run *)

(** Whether a logged call is a command that [Provision] itself sent over
    the channel, as opposed to the invocation of a collaborator. *)
Definition isCommand (ev : Event) : bool :=
  match ev with
  | RunSSHCommandFromDriver _ => true
  | _ => false
  end.

(** ** Package actions as the integers they are

    [pkgaction.PackageAction] is an integer type, so [Package] can be
    handed a value that is none of the three constants; its switch has no
    default case. *)

Section IntegerActions.

Variable respond : Oracle.

(** The values of the constants [pkgaction.Install], [pkgaction.Remove]
    and [pkgaction.Upgrade]. *)
Variable Install : Z.
Variable Remove : Z.
Variable Upgrade : Z.

Definition PackageAction_value (a : pkgaction.PackageAction) : Z :=
  match a with
  | pkgaction.Install => Install
  | pkgaction.Remove => Remove
  | pkgaction.Upgrade => Upgrade
  end.

(** [Package] of the revision with the [Upgrade] case, on any integer:
    the cases of the switch are tried in order, and [packageAction] keeps
    its zero value when none applies. *)
Definition Part000_Package_int (name : string) (action : Z)
    : M Part000.CentosProvisioner unit :=
  let packageAction :=
    if Z.eqb action Install then "install"
    else if Z.eqb action Remove then "remove"
    else if Z.eqb action Upgrade then "upgrade"
    else "" in
  let command := "sudo -E yum -y " +++ packageAction +++ " " +++ name in
  Part000.SSHCommand respond command.

End IntegerActions.

(** * Facts *)

(** ** Strings *)

Lemma append_assoc (a b c : string) : (a +++ b) +++ c = a +++ b +++ c.
Proof.
  induction a as [|ch a IH]; simpl; [reflexivity|].
  now rewrite IH.
Qed.

Lemma append_nil_r (a : string) : a +++ "" = a.
Proof.
  induction a as [|ch a IH]; simpl; [reflexivity|].
  now rewrite IH.
Qed.

Lemma length_append (a b : string) :
  String.length (a +++ b) = String.length a + String.length b.
Proof.
  induction a as [|ch a IH]; simpl; [reflexivity|].
  now rewrite IH.
Qed.

Lemma range_app (xs ys : list string) (body : string -> string) :
  range (xs ++ ys) body = range xs body +++ range ys body.
Proof.
  induction xs as [|x xs IH]; simpl; [reflexivity|].
  now rewrite IH, append_assoc.
Qed.

Lemma range_concat_map (xs : list string) (body : string -> string) :
  range xs body = String.concat "" (map body xs).
Proof.
  induction xs as [|x xs IH]; simpl; [reflexivity|].
  rewrite IH. destruct (map body xs) as [|y ys] eqn:E.
  - simpl. now rewrite append_nil_r.
  - reflexivity.
Qed.

Lemma prefix_append (s t : string) : String.prefix s (s +++ t) = true.
Proof.
  induction s as [|ch s IH]; simpl.
  - now destruct t.
  - destruct (ascii_dec ch ch) as [_|N]; [exact IH | now elim N].
Qed.

Lemma contains_prefix (s t : string) :
  String.prefix s t = true -> contains s t = true.
Proof.
  intros H. destruct t; cbn [contains]; rewrite H; reflexivity.
Qed.

Lemma contains_append (before s after : string) :
  contains s (before +++ s +++ after) = true.
Proof.
  induction before as [|ch before IH].
  - change ("" +++ s +++ after) with (s +++ after).
    apply contains_prefix, prefix_append.
  - cbn [String.append contains]. rewrite IH. apply orb_true_r.
Qed.

Lemma Substring_contains (s t : string) :
  Substring s t -> contains s t = true.
Proof. intros (before & after & ->). apply contains_append. Qed.

(** ** The monad of method bodies *)

Section MonadFacts.

Variable P : Type.
Variable respond : Oracle.

Lemma St_eta (st : St P) : mkSt (self st) (log st) = st.
Proof. now destruct st. Qed.

Lemma bind_assoc {A B C} (c : M P A) (f : A -> M P B) (g : B -> M P C)
    (st : St P) :
  bind (bind c f) g st = bind c (fun a => bind (f a) g) st.
Proof.
  unfold bind. destruct (c st) as [st1 [e|a]]; reflexivity.
Qed.

Lemma bind_call {B} (ev : Event) (k : unit -> M P B) (st : St P) :
  bind (call respond ev) k st =
  match respond (log st) ev with
  | Some e => (mkSt (self st) (log st ++ [ev]), inl e)
  | None => k tt (mkSt (self st) (log st ++ [ev]))
  end.
Proof.
  unfold bind, call. destruct (respond (log st) ev); reflexivity.
Qed.

Lemma bind_forEach_call {A B} (f : A -> Event) (body : A -> M P unit)
    (xs : list A) (k : unit -> M P B) (st : St P) :
  (forall x, body x = call respond (f x)) ->
  bind (forEach xs body) k st =
  match spec_gates respond (map f xs) (log st) with
  | (tr, Some e) => (mkSt (self st) tr, inl e)
  | (tr, None) => k tt (mkSt (self st) tr)
  end.
Proof.
  intros Hbody. revert st.
  induction xs as [|x xs IH]; intros st; simpl.
  - unfold bind, ret. now rewrite St_eta.
  - rewrite bind_assoc, Hbody, bind_call.
    destruct (respond (log st) (f x)) as [e|]; [reflexivity|].
    rewrite IH. reflexivity.
Qed.

Lemma bind_WaitFor {B} (probe : M P bool) (ev : Event) (n : nat)
    (k : unit -> M P B) (st : St P) :
  (forall st, probe st =
     (mkSt (self st) (log st ++ [ev]),
      inr (match respond (log st) ev with None => true | Some _ => false end))) ->
  bind (WaitFor n probe) k st =
  match spec_poll respond ev n (log st) with
  | (tr, false) => (mkSt (self st) tr, inl ReadinessTimeoutError)
  | (tr, true) => k tt (mkSt (self st) tr)
  end.
Proof.
  intros Hprobe. revert st.
  induction n as [|n IH]; intros st; simpl.
  - unfold bind, fail. now rewrite St_eta.
  - rewrite bind_assoc. unfold bind at 1. rewrite Hprobe.
    destruct (respond (log st) ev) as [e|].
    + rewrite IH. reflexivity.
    + reflexivity.
Qed.

End MonadFacts.

(** ** The design-level bootstrap *)

Section DesignFacts.

(** Splits a conjunction into its parts, and nothing else. *)
Ltac conjs := repeat match goal with |- _ /\ _ => split end.

Variable respond : Oracle.
Variable probe : Event.

Lemma Prefix_nil (l : list Event) : Prefix [] l.
Proof. now exists l. Qed.

Lemma Prefix_cons (ev : Event) (l1 l2 : list Event) :
  Prefix l1 l2 -> Prefix (ev :: l1) (ev :: l2).
Proof. intros [rest ->]. now exists rest. Qed.

Lemma Prefix_app (l l1 l2 : list Event) :
  Prefix l1 l2 -> Prefix (l ++ l1) (l ++ l2).
Proof. intros [rest ->]. exists rest. now rewrite app_assoc. Qed.

Lemma Prefix_weaken (l1 l2 more : list Event) :
  Prefix l1 l2 -> Prefix l1 (l2 ++ more).
Proof. intros [rest ->]. exists (rest ++ more). now rewrite app_assoc. Qed.

Lemma StopsAtFailure_nil (tr0 : list Event) (r : option error) :
  StopsAtFailure respond probe tr0 [] r.
Proof.
  intros before ev after e Heq. now destruct before.
Qed.

Lemma StopsAtFailure_cons (tr0 : list Event) (ev : Event)
    (issued : list Event) (r : option error) :
  ev = probe \/ respond tr0 ev = None ->
  StopsAtFailure respond probe (tr0 ++ [ev]) issued r ->
  StopsAtFailure respond probe tr0 (ev :: issued) r.
Proof.
  intros Hok Hrest before ev' after e Heq Hne Hfail.
  destruct before as [|b before]; simpl in Heq; inversion Heq; subst.
  - rewrite app_nil_r in Hfail. destruct Hok as [Hp|Hn]; congruence.
  - apply (Hrest before ev' after e); auto.
    now rewrite <- app_assoc.
Qed.

Lemma StopsAtFailure_fail (tr0 : list Event) (ev : Event) (e : error) :
  respond tr0 ev = Some e ->
  StopsAtFailure respond probe tr0 [ev] (Some e).
Proof.
  intros Hfail before ev' after e' Heq Hne Hfail'.
  destruct before as [|b before]; simpl in Heq; inversion Heq; subst.
  - rewrite app_nil_r in Hfail'. split; congruence.
  - now destruct before.
Qed.

Lemma StopsAtFailure_probes (tr0 : list Event) (k : nat) (r : option error) :
  StopsAtFailure respond probe tr0 (repeat probe k) r.
Proof.
  intros before ev after e Heq Hne _. exfalso. apply Hne.
  apply (repeat_spec k probe ev). rewrite Heq.
  apply in_or_app. right. now left.
Qed.

Lemma StopsAtFailure_app (tr0 s1 s2 : list Event) (r : option error) :
  StopsAtFailure respond probe tr0 s1 None ->
  StopsAtFailure respond probe (tr0 ++ s1) s2 r ->
  StopsAtFailure respond probe tr0 (s1 ++ s2) r.
Proof.
  intros H1 H2 before ev after e Heq Hne Hfail.
  apply app_eq_app in Heq.
  destruct Heq as [l [[Hs1 Hafter]|[Hbefore Hs2]]].
  - destruct l as [|x l]; simpl in Hafter.
    + rewrite app_nil_r in Hs1. subst s1 s2.
      apply (H2 [] ev after e); auto. now rewrite app_nil_r.
    + injection Hafter as Hx Hafter. subst x.
      destruct (H1 before ev l e Hs1 Hne Hfail) as [_ Habs]. discriminate.
  - apply (H2 l ev after e); auto.
    rewrite <- app_assoc. now rewrite <- Hbefore.
Qed.

Lemma spec_gates_sound (evs tr : list Event) :
  exists issued,
    fst (spec_gates respond evs tr) = tr ++ issued /\
    Prefix issued evs /\
    StopsAtFailure respond probe tr issued (snd (spec_gates respond evs tr)) /\
    (snd (spec_gates respond evs tr) = None -> issued = evs) /\
    (forall e, snd (spec_gates respond evs tr) = Some e ->
       exists before ev,
         issued = before ++ [ev] /\ respond (tr ++ before) ev = Some e).
Proof.
  revert tr. induction evs as [|ev evs IH]; intros tr; simpl.
  - exists []. conjs.
    + now rewrite app_nil_r.
    + apply Prefix_nil.
    + apply StopsAtFailure_nil.
    + reflexivity.
    + discriminate.
  - destruct (respond tr ev) as [e|] eqn:Hr; simpl.
    + exists [ev]. conjs.
      * reflexivity.
      * apply Prefix_cons, Prefix_nil.
      * now apply StopsAtFailure_fail.
      * discriminate.
      * intros e' He'. injection He' as <-.
        exists [], ev. now rewrite app_nil_r.
    + destruct (IH (tr ++ [ev])) as (issued & Hlog & Hpre & Hstop & Hok & Herr).
      exists (ev :: issued). conjs.
      * rewrite Hlog. now rewrite <- app_assoc.
      * now apply Prefix_cons.
      * apply StopsAtFailure_cons; auto.
      * intros Hnone. now rewrite (Hok Hnone).
      * intros e He. destruct (Herr e He) as (before & ev' & Hissued & Hfail).
        exists (ev :: before), ev'. subst issued. split; [reflexivity|].
        now rewrite <- app_assoc in Hfail.
Qed.

Lemma spec_poll_sound (n : nat) (tr : list Event) :
  exists k,
    k <= n /\
    fst (spec_poll respond probe n tr) = tr ++ repeat probe k /\
    (snd (spec_poll respond probe n tr) = true -> 1 <= k) /\
    (snd (spec_poll respond probe n tr) = false -> k = n).
Proof.
  revert tr. induction n as [|n IH]; intros tr; simpl.
  - exists 0. simpl. rewrite app_nil_r. conjs; auto; discriminate.
  - destruct (respond tr probe) as [e|]; simpl.
    + destruct (IH (tr ++ [probe])) as (k & Hk & Hlog & Ht & Hf).
      exists (S k). conjs.
      * lia.
      * rewrite Hlog. simpl. now rewrite <- app_assoc.
      * intros _. lia.
      * intros H. now rewrite (Hf H).
    + exists 1. conjs; auto; try lia; discriminate.
Qed.

Lemma spec_bootstrap_sound (before : list Event) (n : nat)
    (after tr : list Event) :
  exists issued k,
    fst (spec_bootstrap respond before probe n after tr) = tr ++ issued /\
    k <= n /\
    Prefix issued (before ++ repeat probe k ++ after) /\
    StopsAtFailure respond probe tr issued
      (snd (spec_bootstrap respond before probe n after tr)) /\
    (snd (spec_bootstrap respond before probe n after tr) = None ->
       issued = before ++ repeat probe k ++ after /\ 1 <= k) /\
    (forall e,
       snd (spec_bootstrap respond before probe n after tr) = Some e ->
       (exists b ev, issued = b ++ [ev] /\ respond (tr ++ b) ev = Some e) \/
       (e = ReadinessTimeoutError /\ issued = before ++ repeat probe n)).
Proof.
  unfold spec_bootstrap.
  destruct (spec_gates_sound before tr)
    as (i1 & Hlog1 & Hpre1 & Hstop1 & Hok1 & Herr1).
  destruct (spec_gates respond before tr) as [tr1 [e1|]]; simpl in *.
  - exists i1, 0. conjs.
    + assumption.
    + lia.
    + now apply Prefix_weaken.
    + assumption.
    + discriminate.
    + intros e He. left. now apply Herr1.
  - specialize (Hok1 eq_refl). subst i1 tr1.
    destruct (spec_poll_sound n (tr ++ before)) as (k & Hk & Hlog2 & Hyes & Hno).
    destruct (spec_poll respond probe n (tr ++ before)) as [tr2 [|]];
      simpl in *.
    + destruct (spec_gates_sound after tr2)
        as (i3 & Hlog3 & Hpre3 & Hstop3 & Hok3 & Herr3).
      subst tr2.
      exists (before ++ repeat probe k ++ i3), k. conjs.
      * rewrite Hlog3. now rewrite <- !app_assoc.
      * assumption.
      * now apply Prefix_app, Prefix_app.
      * apply StopsAtFailure_app; auto.
        apply StopsAtFailure_app; auto using StopsAtFailure_probes.
      * intros Hnone. rewrite (Hok3 Hnone). auto.
      * intros e He. left.
        destruct (Herr3 e He) as (b & ev & Hi3 & Hfail).
        exists (before ++ repeat probe k ++ b), ev. subst i3. split.
        -- now rewrite <- !app_assoc.
        -- now rewrite <- !app_assoc in Hfail.
    + rewrite (Hno eq_refl) in Hlog2. subst tr2.
      exists (before ++ repeat probe n), n. conjs.
      * now rewrite <- app_assoc.
      * lia.
      * apply Prefix_app. exists after. reflexivity.
      * apply StopsAtFailure_app; auto using StopsAtFailure_probes.
      * discriminate.
      * intros e He. right. injection He as <-. auto.
Qed.

End DesignFacts.

(** ** The source's bootstrap against the design's *)

Section Refinement.

Variable respond : Oracle.

Lemma spec_gates_app (a b tr : list Event) :
  spec_gates respond (a ++ b) tr =
  match spec_gates respond a tr with
  | (tr1, Some e) => (tr1, Some e)
  | (tr1, None) => spec_gates respond b tr1
  end.
Proof.
  revert tr. induction a as [|ev a IH]; intros tr; simpl; [reflexivity|].
  destruct (respond tr ev); [reflexivity | apply IH].
Qed.

Lemma bind_get_self {P B} (k : P -> M P B) (st : St P) :
  bind get_self k st = k (self st) st.
Proof. reflexivity. Qed.

Lemma bind_set_self {P B} (p : P) (k : unit -> M P B) (st : St P) :
  bind (set_self p) k st = k tt (mkSt p (log st)).
Proof. reflexivity. Qed.

Lemma call_eq {P} (ev : Event) (st : St P) :
  call respond ev st =
  (mkSt (self st) (log st ++ [ev]),
   match respond (log st) ev with Some e => inl e | None => inr tt end).
Proof. unfold call. destruct (respond (log st) ev); reflexivity. Qed.

Lemma Part000_probe_eq (st : St Part000.CentosProvisioner) :
  Part000.dockerDaemonResponding respond st =
  (mkSt (self st) (log st ++ [probeCall]),
   inr (match respond (log st) probeCall with
        | None => true
        | Some _ => false
        end)).
Proof.
  unfold Part000.dockerDaemonResponding, Part000.SSHCommand, probeCall.
  rewrite call_eq. destruct (respond _ _); reflexivity.
Qed.

Lemma CentosGo_probe_eq (st : St CentosGo.CentosProvisioner) :
  CentosGo.dockerDaemonResponding respond st =
  (mkSt (self st) (log st ++ [probeCall]),
   inr (match respond (log st) probeCall with
        | None => true
        | Some _ => false
        end)).
Proof.
  unfold CentosGo.dockerDaemonResponding, CentosGo.SSHCommand, probeCall.
  rewrite call_eq. destruct (respond _ _); reflexivity.
Qed.

(** One gated call on both sides. *)
Ltac gate :=
  rewrite bind_call; cbn [spec_gates log self];
  match goal with
  | |- context [respond ?tr ?ev] => destruct (respond tr ev); [reflexivity|]
  end.

Lemma Part000_Provision_refines (maxAttempts : nat)
    (Quote : string -> string)
    (setRemoteAuthOptions : Part000.CentosProvisioner -> auth.AuthOptions)
    (sw : swarm.SwarmOptions) (au : auth.AuthOptions)
    (en : engine.EngineOptions) (st : St Part000.CentosProvisioner) :
  outcome (Part000.Provision respond maxAttempts Quote setRemoteAuthOptions
             sw au en st) =
  spec_bootstrap respond
    (callsBeforeWait Quote
       (drivers.GetMachineName (Part000.Driver (self st)))
       (Part000.packages (self st)))
    probeCall maxAttempts Part000_callsAfterWait (log st).
Proof.
  unfold Part000.Provision, Part000.SetHostname, Part000.SSHCommand.
  unfold spec_bootstrap, callsBeforeWait, hostnameCommands.
  rewrite bind_get_self, bind_set_self.
  cbn [map app]. rewrite map_app, map_map. cbn [map].
  gate. rewrite bind_get_self. cbn [self]. rewrite bind_assoc.
  cbn [Part000.set_EngineOptions Part000.set_AuthOptions
       Part000.set_SwarmOptions Part000.Driver Part000.packages].
  gate. gate. gate.
  rewrite bind_get_self. cbn [self Part000.packages].
  rewrite (bind_forEach_call _ respond
             (fun x => RunSSHCommandFromDriver (installCommand x)))
    by reflexivity.
  rewrite <- (app_assoc (map _ (Part000.packages (self st)))), spec_gates_app.
  cbn [log].
  destruct (spec_gates respond _ _) as [tr1 [e|]]; [reflexivity|].
  cbn [app]. gate. gate.
  rewrite (bind_WaitFor _ respond _ probeCall) by apply Part000_probe_eq.
  cbn [log]. destruct (spec_poll respond _ _ _) as [tr2 [|]]; [|reflexivity].
  unfold Part000_callsAfterWait. gate.
  rewrite bind_get_self, bind_set_self. gate.
  rewrite call_eq. cbn [spec_gates log self].
  destruct (respond _ _); reflexivity.
Qed.

Lemma CentosGo_Provision_refines (maxAttempts : nat)
    (Quote : string -> string)
    (sw : swarm.SwarmOptions) (au : auth.AuthOptions)
    (st : St CentosGo.CentosProvisioner) :
  outcome (CentosGo.Provision respond maxAttempts Quote sw au st) =
  spec_bootstrap respond
    (callsBeforeWait Quote
       (drivers.GetMachineName (CentosGo.Driver (self st)))
       (CentosGo.packages (self st)))
    probeCall maxAttempts CentosGo_callsAfterWait (log st).
Proof.
  unfold CentosGo.Provision, CentosGo.SetHostname, CentosGo.SSHCommand.
  unfold spec_bootstrap, callsBeforeWait, hostnameCommands.
  cbn [map app]. rewrite map_app, map_map. cbn [map].
  gate. rewrite bind_get_self. cbn [self]. rewrite bind_assoc.
  gate. gate. gate.
  rewrite bind_get_self. cbn [self].
  rewrite (bind_forEach_call _ respond
             (fun x => RunSSHCommandFromDriver (installCommand x)))
    by reflexivity.
  rewrite <- (app_assoc (map _ (CentosGo.packages (self st)))), spec_gates_app.
  cbn [log].
  destruct (spec_gates respond _ _) as [tr1 [e|]]; [reflexivity|].
  cbn [app]. gate. gate.
  rewrite (bind_WaitFor _ respond _ probeCall) by apply CentosGo_probe_eq.
  cbn [log]. destruct (spec_poll respond _ _ _) as [tr2 [|]]; [|reflexivity].
  unfold CentosGo_callsAfterWait. gate.
  rewrite call_eq. cbn [spec_gates log self].
  destruct (respond _ _); reflexivity.
Qed.

End Refinement.

(** ** The bootstrap orchestrator *)

(** The calls of a run of [Provision] and its result, read off the
    design-level bootstrap. *)
Lemma Part000_Provision_run
    (respond : Oracle) (maxAttempts : nat) (Quote : string -> string)
    (setRemoteAuthOptions : Part000.CentosProvisioner -> auth.AuthOptions)
    (sw : swarm.SwarmOptions) (au : auth.AuthOptions)
    (en : engine.EngineOptions) (st : St Part000.CentosProvisioner) :
  let run :=
    Part000.Provision respond maxAttempts Quote setRemoteAuthOptions
      sw au en st in
  exists issued k,
    log (fst run) = log st ++ issued /\
    k <= maxAttempts /\
    Prefix issued (Part000_schedule Quote (self st) k) /\
    (forall before ev after e,
       issued = before ++ ev :: after ->
       ev <> probeCall ->
       respond (log st ++ before) ev = Some e ->
       after = [] /\ snd run = inl e) /\
    (snd run = inr tt ->
       issued = Part000_schedule Quote (self st) k /\ 1 <= k) /\
    (forall e, snd run = inl e ->
       (exists before ev,
          issued = before ++ [ev] /\
          respond (log st ++ before) ev = Some e) \/
       (e = ReadinessTimeoutError /\
        issued =
          callsBeforeWait Quote
            (drivers.GetMachineName (Part000.Driver (self st)))
            (Part000.packages (self st))
          ++ repeat probeCall maxAttempts)).
Proof.
  intros run.
  pose proof (Part000_Provision_refines respond maxAttempts Quote
                setRemoteAuthOptions sw au en st) as Href.
  fold run in Href.
  destruct (spec_bootstrap_sound respond probeCall
              (callsBeforeWait Quote
                 (drivers.GetMachineName (Part000.Driver (self st)))
                 (Part000.packages (self st)))
              maxAttempts Part000_callsAfterWait (log st))
    as (issued & k & Hlog & Hk & Hpre & Hstop & Hok & Herr).
  rewrite <- Href in Hlog, Hstop, Hok, Herr.
  unfold outcome in Hlog, Hstop, Hok, Herr. simpl in Hlog, Hstop, Hok, Herr.
  exists issued, k.
  split; [exact Hlog|]. split; [exact Hk|]. split; [exact Hpre|].
  split; [|split].
  - intros before ev after e Heq Hne Hfail.
    destruct (Hstop before ev after e Heq Hne Hfail) as [Hafter Hres].
    split; [exact Hafter|].
    destruct (snd run) as [e'|[]]; [congruence | discriminate].
  - intros Hrun. apply Hok. now rewrite Hrun.
  - intros e Hrun. apply Herr. now rewrite Hrun.
Qed.

(** ** The readiness wait inside the bootstrap *)

Section WaitFacts.

Variable respond : Oracle.
Variable probe : Event.

Lemma app_same_nil (l rest : list Event) : l = l ++ rest -> rest = [].
Proof.
  intros H. apply (f_equal (@length Event)) in H.
  rewrite length_app in H. destruct rest; [reflexivity | simpl in H; lia].
Qed.

(** The probes of a wait: all but the last one made have failed; the wait
    answers true after a probe that succeeded, and false after as many
    failed probes as were allowed. *)
Lemma spec_poll_outcomes (n : nat) (tr : list Event) :
  exists k,
    k <= n /\
    fst (spec_poll respond probe n tr) = tr ++ repeat probe k /\
    (forall j, S j < k -> respond (tr ++ repeat probe j) probe <> None) /\
    (snd (spec_poll respond probe n tr) = true ->
       1 <= k /\ respond (tr ++ repeat probe (k - 1)) probe = None) /\
    (snd (spec_poll respond probe n tr) = false ->
       k = n /\
       forall j, j < n -> respond (tr ++ repeat probe j) probe <> None).
Proof.
  revert tr. induction n as [|n IH]; intros tr; simpl.
  - exists 0. simpl. rewrite app_nil_r.
    split; [lia|]. split; [reflexivity|]. split; [intros j Hj; lia|].
    split; [discriminate|]. intros _. split; [reflexivity|]. intros j Hj. lia.
  - destruct (respond tr probe) as [e|] eqn:Hr; simpl.
    + destruct (IH (tr ++ [probe])) as (k & Hk & Hlog & Hbut & Hyes & Hno).
      assert (Hshift : forall j,
                 (tr ++ [probe]) ++ repeat probe j = tr ++ repeat probe (S j)).
      { intros j. now rewrite <- app_assoc. }
      exists (S k). split; [lia|]. split; [|split; [|split]].
      * rewrite Hlog. apply Hshift.
      * intros [|j] Hj.
        -- simpl. rewrite app_nil_r. congruence.
        -- rewrite <- Hshift. apply Hbut. lia.
      * intros Ht. destruct (Hyes Ht) as [Hk1 Hlast]. split; [lia|].
        replace (S k - 1) with (S (k - 1)) by lia.
        now rewrite <- Hshift.
      * intros Hf. destruct (Hno Hf) as [Hkn Hall]. split; [lia|].
        intros [|j] Hj.
        -- simpl. rewrite app_nil_r. congruence.
        -- rewrite <- Hshift. apply Hall. lia.
    + exists 1. split; [lia|]. split; [reflexivity|].
      split; [intros j Hj; lia|]. split; [|discriminate].
      intros _. split; [lia|]. simpl. now rewrite app_nil_r.
Qed.

(** The bootstrap with its wait: the facts of [spec_bootstrap_sound], and
    beside them what the wait decides. *)
Lemma spec_bootstrap_complete (before : list Event) (n : nat)
    (after tr : list Event) :
  exists issued k,
    fst (spec_bootstrap respond before probe n after tr) = tr ++ issued /\
    k <= n /\
    Prefix issued (before ++ repeat probe k ++ after) /\
    StopsAtFailure respond probe tr issued
      (snd (spec_bootstrap respond before probe n after tr)) /\
    (snd (spec_bootstrap respond before probe n after tr) = None ->
       issued = before ++ repeat probe k ++ after /\ 1 <= k) /\
    (forall e,
       snd (spec_bootstrap respond before probe n after tr) = Some e ->
       (exists b ev, issued = b ++ [ev] /\ respond (tr ++ b) ev = Some e) \/
       (e = ReadinessTimeoutError /\ issued = before ++ repeat probe n)) /\
    (forall j, S j < k ->
       respond (tr ++ before ++ repeat probe j) probe <> None) /\
    (forall rest,
       issued = before ++ repeat probe k ++ rest ->
       rest <> [] \/
       snd (spec_bootstrap respond before probe n after tr) = None ->
       1 <= k /\
       respond (tr ++ before ++ repeat probe (k - 1)) probe = None) /\
    ((forall pre ev post,
        before = pre ++ ev :: post -> respond (tr ++ pre) ev = None) ->
     (forall j, j < n ->
        respond (tr ++ before ++ repeat probe j) probe <> None) ->
     issued = before ++ repeat probe n /\
     snd (spec_bootstrap respond before probe n after tr)
       = Some ReadinessTimeoutError).
Proof.
  unfold spec_bootstrap.
  destruct (spec_gates_sound respond probe before tr)
    as (i1 & Hlog1 & Hpre1 & Hstop1 & Hok1 & Herr1).
  destruct (spec_gates respond before tr) as [tr1 [e1|]]; simpl in *.
  - (* a call before the wait failed *)
    destruct (Herr1 e1 eq_refl) as (b1 & ev1 & Hi1 & Hfail1).
    exists i1, 0.
    split; [assumption|]. split; [lia|].
    split; [now apply Prefix_weaken|]. split; [assumption|].
    split; [discriminate|].
    split; [intros e He; left; now apply Herr1|].
    split; [intros j Hj; lia|]. split.
    + intros rest Hrest [Hne|Hnone]; [|discriminate Hnone].
      exfalso. apply Hne. simpl in Hrest.
      destruct Hpre1 as [more Hmore]. rewrite Hmore in Hrest.
      rewrite <- app_assoc in Hrest.
      apply app_same_nil in Hrest.
      apply app_eq_nil in Hrest. tauto.
    + intros Hall _. exfalso.
      destruct Hpre1 as [more Hmore]. rewrite Hi1, <- app_assoc in Hmore.
      simpl in Hmore.
      rewrite (Hall b1 ev1 more Hmore) in Hfail1. discriminate.
  - specialize (Hok1 eq_refl). subst i1 tr1.
    destruct (spec_poll_outcomes n (tr ++ before))
      as (k & Hk & Hlog2 & Hbut & Hyes & Hno).
    assert (Hpos : forall j,
               (tr ++ before) ++ repeat probe j = tr ++ before ++ repeat probe j).
    { intros j. now rewrite <- app_assoc. }
    destruct (spec_poll respond probe n (tr ++ before)) as [tr2 [|]];
      simpl in *.
    + (* the wait succeeded *)
      destruct (Hyes eq_refl) as [Hk1 Hlast].
      destruct (spec_gates_sound respond probe after tr2)
        as (i3 & Hlog3 & Hpre3 & Hstop3 & Hok3 & Herr3).
      subst tr2.
      exists (before ++ repeat probe k ++ i3), k.
      split; [rewrite Hlog3; now rewrite <- !app_assoc|].
      split; [assumption|].
      split; [now apply Prefix_app, Prefix_app|].
      split.
      { apply StopsAtFailure_app; auto.
        apply StopsAtFailure_app; auto using StopsAtFailure_probes. }
      split; [intros Hnone; rewrite (Hok3 Hnone); auto|].
      split.
      { intros e He. left.
        destruct (Herr3 e He) as (b & ev & Hi3 & Hfail).
        exists (before ++ repeat probe k ++ b), ev. subst i3. split.
        - now rewrite <- !app_assoc.
        - now rewrite <- !app_assoc in Hfail. }
      split; [intros j Hj; rewrite <- Hpos; now apply Hbut|].
      split.
      { intros rest _ _. split; [assumption|]. now rewrite <- Hpos. }
      { intros _ Hall. exfalso.
        apply (Hall (k - 1)); [lia|]. now rewrite <- Hpos. }
    + (* the wait gave up *)
      destruct (Hno eq_refl) as [Hkn Hall]. subst k tr2.
      exists (before ++ repeat probe n), n.
      split; [now rewrite <- app_assoc|]. split; [lia|].
      split; [apply Prefix_app; now exists after|].
      split; [apply StopsAtFailure_app; auto using StopsAtFailure_probes|].
      split; [discriminate|].
      split; [intros e He; right; injection He as <-; auto|].
      split; [intros j Hj; rewrite <- Hpos; now apply Hbut|].
      split.
      { intros rest Hrest [Hne|Hnone]; [|discriminate Hnone].
        exfalso. apply Hne.
        rewrite (app_assoc before) in Hrest.
        now apply app_same_nil in Hrest. }
      { intros _ _. split; reflexivity. }
Qed.

End WaitFacts.

(** C2.  Whatever the outcomes of the calls, [Provision] runs as the
    gated bootstrap of the design, in both revisions: its calls are made in
    the order of the schedule, without skipping any; a call other than the
    readiness probe that fails is the last call of the run and its error is
    the result; a run that returns no error has made every call of the
    schedule; an error returned is that of the last call made, or the
    poller giving up after its last attempt.  The readiness wait is a step
    of the sequence like the others: every probe but the last one made has
    failed, a call after the wait is made only after a probe that
    succeeded, and when the calls before the wait succeed and every
    allowed probe fails, the run ends at the last probe with the error of
    the poller. *)
Theorem Part000_Provision_aborts_at_first_failure
    (respond : Oracle) (maxAttempts : nat) (Quote : string -> string)
    (setRemoteAuthOptions : Part000.CentosProvisioner -> auth.AuthOptions)
    (sw : swarm.SwarmOptions) (au : auth.AuthOptions)
    (en : engine.EngineOptions) (st : St Part000.CentosProvisioner)
    (st' : St CentosGo.CentosProvisioner) :
  (let run :=
     Part000.Provision respond maxAttempts Quote setRemoteAuthOptions
       sw au en st in
   outcome run =
     spec_bootstrap respond
       (callsBeforeWait Quote
            (drivers.GetMachineName (Part000.Driver (self st)))
            (Part000.packages (self st)))
       probeCall maxAttempts Part000_callsAfterWait (log st) /\
   exists issued k,
     log (fst run) = log st ++ issued /\
     k <= maxAttempts /\
     Prefix issued (Part000_schedule Quote (self st) k) /\
     (forall before ev after e,
        issued = before ++ ev :: after ->
        ev <> probeCall ->
        respond (log st ++ before) ev = Some e ->
        after = [] /\ snd run = inl e) /\
     (snd run = inr tt ->
        issued = Part000_schedule Quote (self st) k /\ 1 <= k) /\
     (forall e, snd run = inl e ->
        (exists before ev,
           issued = before ++ [ev] /\
           respond (log st ++ before) ev = Some e) \/
        (e = ReadinessTimeoutError /\
         issued =
           callsBeforeWait Quote
            (drivers.GetMachineName (Part000.Driver (self st)))
            (Part000.packages (self st))
           ++ repeat probeCall maxAttempts)) /\
     (forall j, S j < k ->
        respond
          (log st
           ++ callsBeforeWait Quote
            (drivers.GetMachineName (Part000.Driver (self st)))
            (Part000.packages (self st))
           ++ repeat probeCall j) probeCall <> None) /\
     (forall rest,
        issued =
          callsBeforeWait Quote
            (drivers.GetMachineName (Part000.Driver (self st)))
            (Part000.packages (self st))
          ++ repeat probeCall k ++ rest ->
        rest <> [] \/ snd run = inr tt ->
        1 <= k /\
        respond
          (log st
           ++ callsBeforeWait Quote
            (drivers.GetMachineName (Part000.Driver (self st)))
            (Part000.packages (self st))
           ++ repeat probeCall (k - 1)) probeCall = None) /\
     ((forall pre ev post,
         callsBeforeWait Quote
            (drivers.GetMachineName (Part000.Driver (self st)))
            (Part000.packages (self st))
         = pre ++ ev :: post ->
         respond (log st ++ pre) ev = None) ->
      (forall j, j < maxAttempts ->
         respond
           (log st
            ++ callsBeforeWait Quote
            (drivers.GetMachineName (Part000.Driver (self st)))
            (Part000.packages (self st))
            ++ repeat probeCall j) probeCall <> None) ->
      issued =
        callsBeforeWait Quote
            (drivers.GetMachineName (Part000.Driver (self st)))
            (Part000.packages (self st))
        ++ repeat probeCall maxAttempts /\
      snd run = inl ReadinessTimeoutError)) /\
  (let run :=
     CentosGo.Provision respond maxAttempts Quote sw au st' in
   outcome run =
     spec_bootstrap respond
       (callsBeforeWait Quote
            (drivers.GetMachineName (CentosGo.Driver (self st')))
            (CentosGo.packages (self st')))
       probeCall maxAttempts CentosGo_callsAfterWait (log st') /\
   exists issued k,
     log (fst run) = log st' ++ issued /\
     k <= maxAttempts /\
     Prefix issued (CentosGo_schedule Quote (self st') k) /\
     (forall before ev after e,
        issued = before ++ ev :: after ->
        ev <> probeCall ->
        respond (log st' ++ before) ev = Some e ->
        after = [] /\ snd run = inl e) /\
     (snd run = inr tt ->
        issued = CentosGo_schedule Quote (self st') k /\ 1 <= k) /\
     (forall e, snd run = inl e ->
        (exists before ev,
           issued = before ++ [ev] /\
           respond (log st' ++ before) ev = Some e) \/
        (e = ReadinessTimeoutError /\
         issued =
           callsBeforeWait Quote
            (drivers.GetMachineName (CentosGo.Driver (self st')))
            (CentosGo.packages (self st'))
           ++ repeat probeCall maxAttempts)) /\
     (forall j, S j < k ->
        respond
          (log st'
           ++ callsBeforeWait Quote
            (drivers.GetMachineName (CentosGo.Driver (self st')))
            (CentosGo.packages (self st'))
           ++ repeat probeCall j) probeCall <> None) /\
     (forall rest,
        issued =
          callsBeforeWait Quote
            (drivers.GetMachineName (CentosGo.Driver (self st')))
            (CentosGo.packages (self st'))
          ++ repeat probeCall k ++ rest ->
        rest <> [] \/ snd run = inr tt ->
        1 <= k /\
        respond
          (log st'
           ++ callsBeforeWait Quote
            (drivers.GetMachineName (CentosGo.Driver (self st')))
            (CentosGo.packages (self st'))
           ++ repeat probeCall (k - 1)) probeCall = None) /\
     ((forall pre ev post,
         callsBeforeWait Quote
            (drivers.GetMachineName (CentosGo.Driver (self st')))
            (CentosGo.packages (self st'))
         = pre ++ ev :: post ->
         respond (log st' ++ pre) ev = None) ->
      (forall j, j < maxAttempts ->
         respond
           (log st'
            ++ callsBeforeWait Quote
            (drivers.GetMachineName (CentosGo.Driver (self st')))
            (CentosGo.packages (self st'))
            ++ repeat probeCall j) probeCall <> None) ->
      issued =
        callsBeforeWait Quote
            (drivers.GetMachineName (CentosGo.Driver (self st')))
            (CentosGo.packages (self st'))
        ++ repeat probeCall maxAttempts /\
      snd run = inl ReadinessTimeoutError)).
Proof.
  split.
  - intros run.
    pose proof (Part000_Provision_refines respond maxAttempts Quote
                  setRemoteAuthOptions sw au en st) as Href.
    fold run in Href. split; [exact Href|].
    destruct (spec_bootstrap_complete respond probeCall
                (callsBeforeWait Quote
                   (drivers.GetMachineName (Part000.Driver (self st)))
                   (Part000.packages (self st)))
                maxAttempts Part000_callsAfterWait (log st))
      as (issued & k & Hlog & Hk & Hpre & Hstop & Hok & Herr
          & Hbut & Hpast & Hgiveup).
    rewrite <- Href in Hlog, Hstop, Hok, Herr, Hpast, Hgiveup.
    unfold outcome in Hlog, Hstop, Hok, Herr, Hpast, Hgiveup.
    cbn [fst snd] in Hlog, Hstop, Hok, Herr, Hpast, Hgiveup.
    assert (Hres : forall e,
               match snd run with inl e' => Some e' | inr _ => None end
                 = Some e -> snd run = inl e).
    { intros e. destruct (snd run) as [e'|[]]; [congruence | discriminate]. }
    exists issued, k.
    split; [exact Hlog|]. split; [exact Hk|]. split; [exact Hpre|].
    split; [|split; [|split; [|split; [|split]]]].
    + intros before ev after e Heq Hne Hfail.
      destruct (Hstop before ev after e Heq Hne Hfail) as [Hafter Hr].
      split; [exact Hafter | exact (Hres e Hr)].
    + intros Hrun. apply Hok. now rewrite Hrun.
    + intros e Hrun. apply Herr. now rewrite Hrun.
    + exact Hbut.
    + intros rest Hrest Hor. apply (Hpast rest Hrest).
      destruct Hor as [Hne|Hrun]; [now left | right; now rewrite Hrun].
    + intros Hgates Hprobes.
      destruct (Hgiveup Hgates Hprobes) as [Hissued Hr].
      split; [exact Hissued | exact (Hres _ Hr)].
  - intros run.
    pose proof (CentosGo_Provision_refines respond maxAttempts Quote
                  sw au st') as Href.
    fold run in Href. split; [exact Href|].
    destruct (spec_bootstrap_complete respond probeCall
                (callsBeforeWait Quote
                   (drivers.GetMachineName (CentosGo.Driver (self st')))
                   (CentosGo.packages (self st')))
                maxAttempts CentosGo_callsAfterWait (log st'))
      as (issued & k & Hlog & Hk & Hpre & Hstop & Hok & Herr
          & Hbut & Hpast & Hgiveup).
    rewrite <- Href in Hlog, Hstop, Hok, Herr, Hpast, Hgiveup.
    unfold outcome in Hlog, Hstop, Hok, Herr, Hpast, Hgiveup.
    cbn [fst snd] in Hlog, Hstop, Hok, Herr, Hpast, Hgiveup.
    assert (Hres : forall e,
               match snd run with inl e' => Some e' | inr _ => None end
                 = Some e -> snd run = inl e).
    { intros e. destruct (snd run) as [e'|[]]; [congruence | discriminate]. }
    exists issued, k.
    split; [exact Hlog|]. split; [exact Hk|]. split; [exact Hpre|].
    split; [|split; [|split; [|split; [|split]]]].
    + intros before ev after e Heq Hne Hfail.
      destruct (Hstop before ev after e Heq Hne Hfail) as [Hafter Hr].
      split; [exact Hafter | exact (Hres e Hr)].
    + intros Hrun. apply Hok. now rewrite Hrun.
    + intros e Hrun. apply Herr. now rewrite Hrun.
    + exact Hbut.
    + intros rest Hrest Hor. apply (Hpast rest Hrest).
      destruct Hor as [Hne|Hrun]; [now left | right; now rewrite Hrun].
    + intros Hgates Hprobes.
      destruct (Hgiveup Hgates Hprobes) as [Hissued Hr].
      split; [exact Hissued | exact (Hres _ Hr)].
Qed.

(** X16.  [Provision] of libmachine/provision/centos.go makes its calls
    in the order of its own schedule, which has no call for the options
    directory; a call other than the readiness probe that fails is the
    last call of the run and its error is the result; a run that returns
    no error has made every call of the schedule. *)
Lemma CentosGo_Provision_aborts_at_first_failure
    (respond : Oracle) (maxAttempts : nat) (Quote : string -> string)
    (sw : swarm.SwarmOptions) (au : auth.AuthOptions)
    (st : St CentosGo.CentosProvisioner) :
  let run := CentosGo.Provision respond maxAttempts Quote sw au st in
  exists issued k,
    log (fst run) = log st ++ issued /\
    k <= maxAttempts /\
    Prefix issued (CentosGo_schedule Quote (self st) k) /\
    (forall before ev after e,
       issued = before ++ ev :: after ->
       ev <> probeCall ->
       respond (log st ++ before) ev = Some e ->
       after = [] /\ snd run = inl e) /\
    (snd run = inr tt ->
       issued = CentosGo_schedule Quote (self st) k /\ 1 <= k).
Proof.
  intros run.
  pose proof (CentosGo_Provision_refines respond maxAttempts Quote
                sw au st) as Href.
  fold run in Href.
  destruct (spec_bootstrap_sound respond probeCall
              (callsBeforeWait Quote
                 (drivers.GetMachineName (CentosGo.Driver (self st)))
                 (CentosGo.packages (self st)))
              maxAttempts CentosGo_callsAfterWait (log st))
    as (issued & k & Hlog & Hk & Hpre & Hstop & Hok & _).
  rewrite <- Href in Hlog, Hstop, Hok.
  unfold outcome in Hlog, Hstop, Hok. simpl in Hlog, Hstop, Hok.
  exists issued, k.
  split; [exact Hlog|]. split; [exact Hk|]. split; [exact Hpre|]. split.
  - intros before ev after e Heq Hne Hfail.
    destruct (Hstop before ev after e Heq Hne Hfail) as [Hafter Hres].
    split; [exact Hafter|].
    destruct (snd run) as [e'|[]]; [congruence | discriminate].
  - intros Hrun. apply Hok. now rewrite Hrun.
Qed.

(** The command line that installs the one baseline package of a fresh
    provisioner. *)
Lemma installCommand_curl :
  installCommand "curl" = "sudo -E yum -y install curl".
Proof. reflexivity. Qed.

(** C3.  A run of [Provision] on a provisioner built by
    [NewCentosProvisioner] that returns no error has made the calls of the
    schedule for the package list [curl]: the installation command of curl
    is issued exactly once, after the package metadata refresh, and the
    generic engine installation is not invoked before it. *)
Theorem Part000_Provision_installs_curl_once_before_engine
    (respond : Oracle) (maxAttempts : nat) (Quote : string -> string)
    (setRemoteAuthOptions : Part000.CentosProvisioner -> auth.AuthOptions)
    (d : drivers.Driver)
    (sw : swarm.SwarmOptions) (au : auth.AuthOptions)
    (en : engine.EngineOptions) :
  let run :=
    Part000.Provision respond maxAttempts Quote setRemoteAuthOptions
      sw au en (mkSt (Part000.NewCentosProvisioner d) []) in
  let installCurl := RunSSHCommandFromDriver "sudo -E yum -y install curl" in
  snd run = inr tt ->
  Part000.packages (Part000.NewCentosProvisioner d) = ["curl"] /\
  count_occ Event_eq_dec (log (fst run)) installCurl = 1 /\
  exists k before between after,
    1 <= k <= maxAttempts /\
    log (fst run) =
      Part000_schedule Quote (Part000.NewCentosProvisioner d) k /\
    log (fst run) =
      before ++ [installCurl] ++ between
      ++ [Call_installDockerGeneric] ++ after /\
    ~ In Call_installDockerGeneric before /\
    In (RunSSHCommandFromDriver "yum -y update") before.
Proof.
  intros run installCurl Hok.
  destruct (Part000_Provision_run respond maxAttempts
              Quote setRemoteAuthOptions sw au en
              (mkSt (Part000.NewCentosProvisioner d) []))
    as (issued & k & Hlog & Hk & _ & _ & Hdone & _).
  fold run in Hlog, Hdone. simpl in Hlog.
  destruct (Hdone Hok) as [Hissued Hk1]. rewrite Hissued in Hlog.
  split; [reflexivity|].
  rewrite Hlog.
  unfold Part000_schedule, callsBeforeWait, hostnameCommands,
    Part000_callsAfterWait.
  cbn [self map app Part000.packages Part000.NewCentosProvisioner
       Part000.Driver].
  rewrite installCommand_curl. fold installCurl.
  split.
  - rewrite count_occ_cons_neq by (unfold installCurl; discriminate).
    rewrite count_occ_cons_neq by (unfold installCurl; discriminate).
    rewrite count_occ_cons_neq by (unfold installCurl; discriminate).
    rewrite count_occ_cons_neq by (unfold installCurl; discriminate).
    rewrite count_occ_cons_eq by reflexivity.
    rewrite count_occ_cons_neq by (unfold installCurl; discriminate).
    rewrite count_occ_cons_neq by (unfold installCurl; discriminate).
    rewrite count_occ_app.
    rewrite count_occ_repeat_neq by (unfold installCurl, probeCall; discriminate).
    reflexivity.
  - exists k.
    eexists [_; _; _; _], [_], _.
    split; [lia|]. split; [reflexivity|]. split; [reflexivity|]. split.
    + simpl. intros [H|[H|[H|[H|[]]]]]; discriminate H.
    + simpl. auto.
Qed.

(** A failing installation of curl on a fresh provisioner: the run stops
    after five calls with the error of the installation, and the firewall
    command is not among them. *)
Example Part000_Provision_curl_failure :
  let run :=
    Part000.Provision curlFails 3 quotePlain Part000.GetAuthOptions
      swarm_zero auth_zero engine_zero
      (mkSt (Part000.NewCentosProvisioner sampleDriver) []) in
  snd run = inl (CommandExecutionError "exit status 1") /\
  log (fst run) =
    map RunSSHCommandFromDriver
      [ sudoersFixCommand;
        "sudo hostname node1 && echo " +++ dq +++ "node1" +++ dq
          +++ " | sudo tee /etc/hostname";
        "sudo sed -i '/^127.0.0.1/ s/$/ node1/' /etc/hosts";
        "yum -y update";
        "sudo -E yum -y install curl" ] /\
  ~ In (RunSSHCommandFromDriver firewalldCommand) (log (fst run)) /\
  ~ In Call_installDockerGeneric (log (fst run)).
Proof.
  vm_compute. repeat split; intros H;
    repeat (destruct H as [H|H]; [discriminate H|]); exact H.
Qed.

(** ** The configuration renderer *)

(** What a call leaves in the receiver: the label list has grown by the
    provider label, and nothing else has changed. *)
Lemma Part000_GenerateDockerOptions_receiver
    (p : Part000.CentosProvisioner) (port : Z) :
  let p' := fst (Part000.GenerateDockerOptions p port) in
  engine.Labels (Part000.EngineOptions p') =
    engine.Labels (Part000.EngineOptions p) ++ [providerLabel (Part000.Driver p)] /\
  engine.StorageDriver (Part000.EngineOptions p') =
    engine.StorageDriver (Part000.EngineOptions p) /\
  engine.InsecureRegistry (Part000.EngineOptions p') =
    engine.InsecureRegistry (Part000.EngineOptions p) /\
  engine.RegistryMirror (Part000.EngineOptions p') =
    engine.RegistryMirror (Part000.EngineOptions p) /\
  engine.ArbitraryFlags (Part000.EngineOptions p') =
    engine.ArbitraryFlags (Part000.EngineOptions p) /\
  Part000.AuthOptions p' = Part000.AuthOptions p /\
  Part000.Driver p' = Part000.Driver p /\
  Part000.packages p' = Part000.packages p /\
  Part000.OsReleaseInfo p' = Part000.OsReleaseInfo p /\
  Part000.SwarmOptions p' = Part000.SwarmOptions p.
Proof. repeat split. Qed.

(** The text of a call in terms of the receiver before the call. *)
Lemma Part000_GenerateDockerOptions_text
    (p : Part000.CentosProvisioner) (port : Z) :
  content (snd (Part000.GenerateDockerOptions p port)) =
  Part000.engineConfigTmpl
    {| Part000.EngineConfigContext.DockerPort := port;
       Part000.EngineConfigContext.AuthOptions := Part000.AuthOptions p;
       Part000.EngineConfigContext.EngineOptions :=
         engine.set_Labels (Part000.EngineOptions p)
           (engine.Labels (Part000.EngineOptions p)
            ++ [providerLabel (Part000.Driver p)]) |}.
Proof. reflexivity. Qed.

(** A second call on the same provisioner with the same port renders a
    text that is longer than the first by one label line. *)
Lemma Part000_GenerateDockerOptions_second_call_longer
    (p : Part000.CentosProvisioner) (port : Z) :
  let first := Part000.GenerateDockerOptions p port in
  let second := Part000.GenerateDockerOptions (fst first) port in
  String.length (content (snd second)) =
  String.length (content (snd first))
  + String.length ("--label " +++ providerLabel (Part000.Driver p) +++ nl).
Proof.
  cbv zeta. rewrite !Part000_GenerateDockerOptions_text.
  unfold Part000.engineConfigTmpl.
  cbn [Part000.EngineConfigContext.DockerPort
       Part000.EngineConfigContext.AuthOptions
       Part000.EngineConfigContext.EngineOptions
       engine.set_Labels engine.Labels engine.StorageDriver
       engine.InsecureRegistry engine.RegistryMirror engine.ArbitraryFlags
       Part000.GenerateDockerOptions fst Part000.set_EngineOptions
       Part000.EngineOptions Part000.AuthOptions Part000.Driver].
  fold (providerLabel (Part000.Driver p)).
  rewrite (range_app (_ ++ _) [_]).
  cbn [range]. rewrite !length_append. cbn [String.length]. lia.
Qed.

(** No provisioner renders the same text twice in a row. *)
Lemma Part000_GenerateDockerOptions_not_repeatable
    (p : Part000.CentosProvisioner) (port : Z) :
  snd (Part000.GenerateDockerOptions
         (fst (Part000.GenerateDockerOptions p port)) port)
  <> snd (Part000.GenerateDockerOptions p port).
Proof.
  intros Heq.
  pose proof (Part000_GenerateDockerOptions_second_call_longer p port) as Hlen.
  cbv zeta in Hlen. rewrite Heq in Hlen.
  rewrite !length_append in Hlen. cbn [String.length] in Hlen. lia.
Qed.

(** C1.  A fresh provisioner for the sample driver, asked twice in a row
    for the options of port 2376: the first text carries one provider
    label and the second carries two, so the two texts differ. *)
Theorem Part000_GenerateDockerOptions_repeated_call_differs :
  let first :=
    Part000.GenerateDockerOptions
      (Part000.NewCentosProvisioner sampleDriver) 2376 in
  let second := Part000.GenerateDockerOptions (fst first) 2376 in
  content (snd first) =
    nl +++ "OPTIONS='" +++ nl
    +++ "-H tcp://0.0.0.0:2376" +++ nl
    +++ "-H unix:///var/run/docker.sock" +++ nl
    +++ "--storage-driver " +++ nl
    +++ "--tlsverify" +++ nl
    +++ "--tlscacert " +++ nl
    +++ "--tlscert " +++ nl
    +++ "--tlskey " +++ nl
    +++ "--label provider=packet" +++ nl
    +++ nl +++ "'" +++ nl /\
  content (snd second) =
    nl +++ "OPTIONS='" +++ nl
    +++ "-H tcp://0.0.0.0:2376" +++ nl
    +++ "-H unix:///var/run/docker.sock" +++ nl
    +++ "--storage-driver " +++ nl
    +++ "--tlsverify" +++ nl
    +++ "--tlscacert " +++ nl
    +++ "--tlscert " +++ nl
    +++ "--tlskey " +++ nl
    +++ "--label provider=packet" +++ nl
    +++ "--label provider=packet" +++ nl
    +++ nl +++ "'" +++ nl /\
  snd first <> snd second.
Proof.
  split; [reflexivity|]. split; [reflexivity|].
  vm_compute. discriminate.
Qed.

(** libmachine/provision/centos.go leaves its receiver as it was, so its
    rendering can be repeated with the same result. *)
Lemma CentosGo_GenerateDockerOptions_repeatable
    (getDefaultDaemonOpts : string -> auth.AuthOptions -> string)
    (p : CentosGo.CentosProvisioner) (port : Z) (au : auth.AuthOptions) :
  let first := CentosGo.GenerateDockerOptions getDefaultDaemonOpts p port au in
  fst first = p /\
  CentosGo.GenerateDockerOptions getDefaultDaemonOpts (fst first) port au =
  first.
Proof. split; reflexivity. Qed.

Lemma Substring_skip (s a t : string) :
  Substring s t -> Substring s (a +++ t).
Proof.
  intros (before & after & ->). exists (a +++ before), after.
  now rewrite append_assoc.
Qed.

(** Walks past the pieces in front of the first repeated group. *)
Ltac skip_to_range :=
  repeat match goal with
         | |- Substring _ (?a +++ _) =>
             lazymatch a with
             | range _ _ => fail
             | _ => apply Substring_skip
             end
         end.

(** The line of the provider label is part of the rendered text. *)
Lemma Part000_provider_line_rendered
    (p : Part000.CentosProvisioner) (port : Z) :
  Substring
    ("--label provider=" +++ drivers.DriverName (Part000.Driver p) +++ nl)
    (content (snd (Part000.GenerateDockerOptions p port))).
Proof.
  cbn [content snd Part000.GenerateDockerOptions
       DockerOptions.EngineOptions].
  unfold Part000.engineConfigTmpl.
  cbn [Part000.EngineConfigContext.EngineOptions Part000.EngineOptions
       Part000.set_EngineOptions engine.set_Labels engine.Labels
       Part000.Driver].
  skip_to_range.
  rewrite range_app, append_assoc. cbn [range].
  rewrite append_nil_r.
  apply Substring_skip.
  match goal with
  | |- Substring _ (_ +++ ?rest) => exists "", rest
  end.
  cbn [String.append]. now rewrite !append_assoc.
Qed.

(** The label flag is in every rendered text, whatever the labels given. *)
Lemma Part000_label_flag_always_rendered
    (p : Part000.CentosProvisioner) (port : Z) :
  contains "--label "
    (content (snd (Part000.GenerateDockerOptions p port))) = true.
Proof.
  apply Substring_contains.
  destruct (Part000_provider_line_rendered p port) as (before & after & Heq).
  exists before,
    ("provider=" +++ drivers.DriverName (Part000.Driver p) +++ nl +++ after).
  rewrite Heq. cbn [String.append]. now rewrite !append_assoc.
Qed.

(** C4.  Whatever the driver name and the labels given, the text returned
    by [GenerateDockerOptions] has a label line for provider=<driver name>,
    and the label list that was rendered is the given one with that label
    appended. *)
Theorem Part000_GenerateDockerOptions_provider_label
    (p : Part000.CentosProvisioner) (port : Z) :
  exists opts,
    snd (Part000.GenerateDockerOptions p port) = inr opts /\
    Substring
      ("--label provider=" +++ drivers.DriverName (Part000.Driver p) +++ nl)
      (DockerOptions.EngineOptions opts) /\
    engine.Labels
      (Part000.EngineOptions (fst (Part000.GenerateDockerOptions p port))) =
    engine.Labels (Part000.EngineOptions p)
    ++ ["provider=" +++ drivers.DriverName (Part000.Driver p)].
Proof.
  eexists. split; [reflexivity|]. split; [|reflexivity].
  exact (Part000_provider_line_rendered p port).
Qed.

(** The claim that a group with an empty source list leaves no flag in the
    text fails for labels: a provisioner without labels still renders a
    label flag. *)
Lemma Part000_GenerateDockerOptions_label_flag_without_labels :
  ~ (forall (p : Part000.CentosProvisioner) (port : Z),
       engine.Labels (Part000.EngineOptions p) = [] ->
       contains "--label "
         (content (snd (Part000.GenerateDockerOptions p port))) = false).
Proof.
  intros H.
  specialize (H (Part000.NewCentosProvisioner sampleDriver) 2376%Z eq_refl).
  vm_compute in H. discriminate H.
Qed.

(** C5, amended.  The text of [GenerateDockerOptions] is the fixed head
    followed by the four groups in the order labels, insecure registries,
    registry mirrors, arbitrary flags, and the closing quote.  Each group has
    one flag line per element in the order of its list; the label group is
    rendered from the given labels followed by the provider label, so it
    is never empty; each of the other three groups is empty when its list
    is empty. *)
Theorem Part000_GenerateDockerOptions_flag_groups
    (p : Part000.CentosProvisioner) (port : Z) :
  exists opts,
    snd (Part000.GenerateDockerOptions p port) = inr opts /\
    DockerOptions.EngineOptions opts =
      nl +++ "OPTIONS='" +++ nl
      +++ "-H tcp://0.0.0.0:" +++ itoa port +++ nl
      +++ "-H unix:///var/run/docker.sock" +++ nl
      +++ "--storage-driver "
      +++ engine.StorageDriver (Part000.EngineOptions p) +++ nl
      +++ "--tlsverify" +++ nl
      +++ "--tlscacert "
      +++ auth.CaCertRemotePath (Part000.AuthOptions p) +++ nl
      +++ "--tlscert "
      +++ auth.ServerCertRemotePath (Part000.AuthOptions p) +++ nl
      +++ "--tlskey "
      +++ auth.ServerKeyRemotePath (Part000.AuthOptions p) +++ nl
      +++ spec_flagGroup "--label "
            (engine.Labels (Part000.EngineOptions p)
             ++ [providerLabel (Part000.Driver p)])
      +++ spec_flagGroup "--insecure-registry "
            (engine.InsecureRegistry (Part000.EngineOptions p))
      +++ spec_flagGroup "--registry-mirror "
            (engine.RegistryMirror (Part000.EngineOptions p))
      +++ spec_flagGroup "--"
            (engine.ArbitraryFlags (Part000.EngineOptions p))
      +++ nl +++ "'" +++ nl /\
    spec_flagGroup "--label "
      (engine.Labels (Part000.EngineOptions p)
       ++ [providerLabel (Part000.Driver p)]) <> "" /\
    (engine.InsecureRegistry (Part000.EngineOptions p) = [] ->
     spec_flagGroup "--insecure-registry "
       (engine.InsecureRegistry (Part000.EngineOptions p)) = "") /\
    (engine.RegistryMirror (Part000.EngineOptions p) = [] ->
     spec_flagGroup "--registry-mirror "
       (engine.RegistryMirror (Part000.EngineOptions p)) = "") /\
    (engine.ArbitraryFlags (Part000.EngineOptions p) = [] ->
     spec_flagGroup "--"
       (engine.ArbitraryFlags (Part000.EngineOptions p)) = "").
Proof.
  eexists. split; [reflexivity|]. split; [|split; [|split; [|split]]].
  - cbn [DockerOptions.EngineOptions]. unfold Part000.engineConfigTmpl.
    rewrite !range_concat_map. reflexivity.
  - unfold spec_flagGroup. rewrite <- range_concat_map, range_app.
    cbn [range]. intros Habs.
    apply (f_equal String.length) in Habs.
    rewrite !length_append in Habs. cbn [String.length] in Habs. lia.
  - intros ->. reflexivity.
  - intros ->. reflexivity.
  - intros ->. reflexivity.
Qed.

(** C10.  The options returned by [GenerateDockerOptions] carry the path
    /etc/sysconfig/docker whatever the port, [GetDockerOptionsDir] answers
    /etc/default/docker, before and after the call, and the two paths
    differ; the same holds of libmachine/provision/centos.go. *)
Theorem GenerateDockerOptions_path_and_options_dir :
  (forall (p : Part000.CentosProvisioner) (port : Z),
     exists opts,
       snd (Part000.GenerateDockerOptions p port) = inr opts /\
       DockerOptions.EngineOptionsPath opts = "/etc/sysconfig/docker" /\
       Part000.GetDockerOptionsDir p = "/etc/default/docker" /\
       Part000.GetDockerOptionsDir
         (fst (Part000.GenerateDockerOptions p port)) = "/etc/default/docker" /\
       Part000.GetDockerOptionsDir p <> DockerOptions.EngineOptionsPath opts) /\
  (forall (getDefaultDaemonOpts : string -> auth.AuthOptions -> string)
          (p : CentosGo.CentosProvisioner) (port : Z) (au : auth.AuthOptions),
     exists opts,
       snd (CentosGo.GenerateDockerOptions getDefaultDaemonOpts p port au)
         = inr opts /\
       DockerOptions.EngineOptionsPath opts = "/etc/sysconfig/docker" /\
       CentosGo.GetDockerOptionsDir p = "/etc/default/docker" /\
       CentosGo.GetDockerOptionsDir p <> DockerOptions.EngineOptionsPath opts).
Proof.
  split.
  - intros p port. eexists. split; [reflexivity|].
    repeat split. discriminate.
  - intros g p port au. eexists. split; [reflexivity|].
    repeat split. discriminate.
Qed.

(** ** The package translator *)

(** The verb yum expects for an action. *)
Lemma Part000_Package_command (respond : Oracle) (name : string)
    (action : pkgaction.PackageAction) (st : St Part000.CentosProvisioner) :
  exists verb,
    match action with
    | pkgaction.Install => verb = "install"
    | pkgaction.Remove => verb = "remove"
    | pkgaction.Upgrade => verb = "upgrade"
    end /\
    Part000.Package respond name action st =
    call respond
      (RunSSHCommandFromDriver ("sudo -E yum -y " +++ verb +++ " " +++ name))
      st /\
    log (fst (Part000.Package respond name action st)) =
    log st
    ++ [RunSSHCommandFromDriver ("sudo -E yum -y " +++ verb +++ " " +++ name)].
Proof.
  destruct action; eexists; (split; [reflexivity|]); split;
    try reflexivity; unfold Part000.Package, Part000.SSHCommand;
    rewrite call_eq; reflexivity.
Qed.

(** In libmachine/provision/centos.go the two actions of the switch get
    their verb as well. *)
Lemma CentosGo_Package_Install_Remove (respond : Oracle) (name : string)
    (st : St CentosGo.CentosProvisioner) :
  CentosGo.Package respond name pkgaction.Install st =
    call respond
      (RunSSHCommandFromDriver ("sudo -E yum -y install " +++ name)) st /\
  CentosGo.Package respond name pkgaction.Remove st =
    call respond
      (RunSSHCommandFromDriver ("sudo -E yum -y remove " +++ name)) st.
Proof. split; reflexivity. Qed.

(** C6.  In libmachine/provision/centos.go, [Package] with the action
    [Upgrade] issues the yum command with an empty verb: for the package
    curl on a channel where every call succeeds, the one command issued has
    two blanks where the verb belongs, the text upgrade does not occur in
    it, and the method returns no error. *)
Theorem CentosGo_Package_Upgrade_issues_no_verb :
  let run :=
    CentosGo.Package alwaysOk "curl" pkgaction.Upgrade
      (mkSt (CentosGo.NewCentosProvisioner sampleDriver) []) in
  log (fst run) = [RunSSHCommandFromDriver "sudo -E yum -y  curl"] /\
  snd run = inr tt /\
  contains "upgrade" "sudo -E yum -y  curl" = false /\
  (forall (respond : Oracle) (name : string)
          (st : St CentosGo.CentosProvisioner),
     CentosGo.Package respond name pkgaction.Upgrade st =
     call respond (RunSSHCommandFromDriver ("sudo -E yum -y  " +++ name)) st).
Proof.
  split; [reflexivity|]. split; [reflexivity|]. split; [reflexivity|].
  intros respond name st. reflexivity.
Qed.

(** ** Compatibility with the host *)

(** C7.  Once the release information is set, [CompatibleWithHost] returns
    a boolean that is true exactly when the identifier of the release is
    centos; the other fields of the release play no part.  Both revisions
    agree. *)
Theorem CompatibleWithHost_exact_id :
  (forall (p : Part000.CentosProvisioner) (info : OsRelease),
     exists b,
       Part000.CompatibleWithHost (Part000.SetOsReleaseInfo p (Some info))
         = Returns b /\
       (b = true <-> Id info = "centos")) /\
  (forall (p : CentosGo.CentosProvisioner) (info : OsRelease),
     exists b,
       CentosGo.CompatibleWithHost (CentosGo.SetOsReleaseInfo p (Some info))
         = Returns b /\
       (b = true <-> Id info = "centos")) /\
  (forall (p : Part000.CentosProvisioner) (info info' : OsRelease),
     Id info = Id info' ->
     Part000.CompatibleWithHost (Part000.SetOsReleaseInfo p (Some info)) =
     Part000.CompatibleWithHost (Part000.SetOsReleaseInfo p (Some info'))) /\
  Part000.CompatibleWithHost
    (Part000.SetOsReleaseInfo (Part000.NewCentosProvisioner sampleDriver)
       (Some centosLikeRelease)) = Returns false.
Proof.
  split; [|split; [|split]].
  - intros p info. exists (String.eqb (Id info) "centos").
    split; [reflexivity | apply String.eqb_eq].
  - intros p info. exists (String.eqb (Id info) "centos").
    split; [reflexivity | apply String.eqb_eq].
  - intros p info info' Hid. cbn. now rewrite Hid.
  - reflexivity.
Qed.

(** C9.  A provisioner fresh from [NewCentosProvisioner] has no release
    information and [CompatibleWithHost] panics on it; in general the call
    panics exactly when the release information is nil, so it is safe
    after [SetOsReleaseInfo] with a release and unsafe after
    [SetOsReleaseInfo] with nil. *)
Theorem Part000_CompatibleWithHost_needs_release_info :
  (forall d,
     Part000.OsReleaseInfo (Part000.NewCentosProvisioner d) = None /\
     Part000.CompatibleWithHost (Part000.NewCentosProvisioner d) = Panics) /\
  (forall p,
     Part000.CompatibleWithHost p = Panics <-> Part000.OsReleaseInfo p = None) /\
  (forall p info,
     Part000.CompatibleWithHost (Part000.SetOsReleaseInfo p (Some info))
       <> Panics) /\
  (forall p,
     Part000.CompatibleWithHost (Part000.SetOsReleaseInfo p None) = Panics).
Proof.
  split; [|split; [|split]].
  - intros d. split; reflexivity.
  - intros p. unfold Part000.CompatibleWithHost.
    destruct (Part000.OsReleaseInfo p); split; intros H;
      try discriminate H; reflexivity.
  - intros p info. discriminate.
  - intros p. reflexivity.
Qed.

(** The same precondition in libmachine/provision/centos.go. *)
Lemma CentosGo_CompatibleWithHost_needs_release_info :
  (forall d,
     CentosGo.CompatibleWithHost (CentosGo.NewCentosProvisioner d) = Panics) /\
  (forall p,
     CentosGo.CompatibleWithHost p = Panics <-> CentosGo.OsReleaseInfo p = None).
Proof.
  split.
  - intros d. reflexivity.
  - intros p. unfold CentosGo.CompatibleWithHost.
    destruct (CentosGo.OsReleaseInfo p); split; intros H;
      try discriminate H; reflexivity.
Qed.

(** ** The readiness probe *)

(** C8.  Whatever the check command does, [dockerDaemonResponding] makes
    that one call and returns a boolean, never an error: true exactly when
    the command succeeded.  When it is true, a wait with at least one
    attempt returns no error right after that call; when it is false, the
    wait goes on with the attempts that remain. *)
Theorem Part000_dockerDaemonResponding_not_fatal
    (respond : Oracle) (st : St Part000.CentosProvisioner) :
  exists ready,
    Part000.dockerDaemonResponding respond st =
      (mkSt (self st)
         (log st ++ [RunSSHCommandFromDriver "sudo docker version"]),
       inr ready) /\
    (ready = true <->
     respond (log st) (RunSSHCommandFromDriver "sudo docker version") = None) /\
    (ready = true ->
     forall n,
       WaitFor (S n) (Part000.dockerDaemonResponding respond) st =
       (mkSt (self st)
          (log st ++ [RunSSHCommandFromDriver "sudo docker version"]),
        inr tt)) /\
    (ready = false ->
     forall n,
       WaitFor (S n) (Part000.dockerDaemonResponding respond) st =
       WaitFor n (Part000.dockerDaemonResponding respond)
         (mkSt (self st)
            (log st ++ [RunSSHCommandFromDriver "sudo docker version"]))).
Proof.
  eexists. split; [apply Part000_probe_eq|].
  fold dockerVersionCommand. fold probeCall.
  split; [|split].
  - destruct (respond (log st) probeCall); split; intros H;
      try discriminate H; reflexivity.
  - intros Hready n. cbn [WaitFor]. unfold bind.
    rewrite Part000_probe_eq. rewrite Hready. reflexivity.
  - intros Hready n. cbn [WaitFor]. unfold bind at 1.
    rewrite Part000_probe_eq. rewrite Hready. reflexivity.
Qed.

(** The wait as a whole: it returns no error exactly when one of its
    attempts found the daemon responding, and then stops probing. *)
Lemma Part000_WaitFor_polls (respond : Oracle) (maxAttempts : nat)
    (st : St Part000.CentosProvisioner) :
  let run := WaitFor maxAttempts (Part000.dockerDaemonResponding respond) st in
  exists k,
    k <= maxAttempts /\
    log (fst run) = log st ++ repeat probeCall k /\
    self (fst run) = self st /\
    (snd run = inr tt -> 1 <= k) /\
    (snd run = inl ReadinessTimeoutError -> k = maxAttempts) /\
    (snd run = inr tt \/ snd run = inl ReadinessTimeoutError).
Proof.
  intros run.
  pose proof (bind_WaitFor _ respond (Part000.dockerDaemonResponding respond)
                probeCall maxAttempts (fun u => ret u) st
                (Part000_probe_eq respond)) as Hrun.
  assert (Hbind : bind (WaitFor maxAttempts
                          (Part000.dockerDaemonResponding respond))
                    (fun u => ret u) st = run).
  { unfold bind, run. destruct (WaitFor _ _ st) as [st' [e|[]]]; reflexivity. }
  rewrite Hbind in Hrun.
  destruct (spec_poll_sound respond probeCall maxAttempts (log st))
    as (k & Hk & Hlog & Hyes & Hno).
  destruct (spec_poll respond probeCall maxAttempts (log st)) as [tr [|]];
    simpl in *; rewrite Hrun; exists k; simpl; repeat split; auto;
    intros H; discriminate H.
Qed.

(** ** A failing package installation *)

Lemma Prefix_In_split (x : Event) (l X Y : list Event) :
  Prefix l (X ++ Y) -> In x l -> ~ In x X ->
  exists Y', l = X ++ Y' /\ Prefix Y' Y.
Proof.
  intros [rest Heq] Hin Hout.
  apply app_eq_app in Heq. destruct Heq as [m [[HX HY]|[Hl HY]]].
  - exfalso. apply Hout. rewrite HX. apply in_or_app. now left.
  - exists m. split; [exact Hl|]. now exists rest.
Qed.

Lemma Prefix_In (x : Event) (l1 l2 : list Event) :
  Prefix l1 l2 -> In x l1 -> In x l2.
Proof. intros [rest ->] Hin. apply in_or_app. now left. Qed.

Lemma last_of_suffix (z : Event) (l1 l2 b : list Event) :
  l1 ++ l2 = b ++ [z] -> l2 <> [] -> In z l2.
Proof.
  intros Heq Hne.
  apply app_eq_app in Heq. destruct Heq as [m [[H1 H2]|[Hb H2]]].
  - destruct m as [|y m]; simpl in H2.
    + subst l2. now left.
    + injection H2 as _ H2. symmetry in H2.
      apply app_eq_nil in H2. destruct H2 as [_ H2]. contradiction.
  - subst l2. apply in_or_app. right. now left.
Qed.

(** An installation command differs from every call the schedule makes
    after the baseline packages. *)
Lemma installCommand_not_later (pkg : string) (k : nat) :
  ~ In (RunSSHCommandFromDriver (installCommand pkg))
      ([RunSSHCommandFromDriver firewalldCommand; Call_installDockerGeneric]
       ++ repeat probeCall k ++ Part000_callsAfterWait).
Proof.
  intros Hin. apply in_app_or in Hin. destruct Hin as [Hin|Hin].
  - destruct Hin as [H|[H|[]]]; discriminate H.
  - apply in_app_or in Hin. destruct Hin as [Hin|Hin].
    + apply repeat_spec in Hin. discriminate Hin.
    + destruct Hin as [H|[H|[H|[]]]]; discriminate H.
Qed.

(** The firewall command differs from every call the schedule makes up to
    the last baseline package. *)
Lemma firewalld_not_earlier (Quote : string -> string) (name : string)
    (pkgs : list string) :
  ~ In (RunSSHCommandFromDriver firewalldCommand)
      (map RunSSHCommandFromDriver
         ([sudoersFixCommand] ++ hostnameCommands Quote name
          ++ ["yum -y update"] ++ map installCommand pkgs)).
Proof.
  intros Hin. apply in_map_iff in Hin. destruct Hin as (c & Hc & Hin).
  injection Hc as Hc.
  destruct Hin as [H|[H|[H|[H|Hin]]]];
    try (rewrite <- H in Hc; discriminate Hc).
  apply in_map_iff in Hin. destruct Hin as (pkg & Hpkg & _).
  rewrite <- Hpkg in Hc. discriminate Hc.
Qed.

(** X17.  If the installation of a baseline package fails, [Provision]
    returns the error of that installation, the installation is its last
    call, and the firewall command is not among the calls made. *)
Lemma Part000_failed_install_skips_firewall
    (respond : Oracle) (maxAttempts : nat) (Quote : string -> string)
    (setRemoteAuthOptions : Part000.CentosProvisioner -> auth.AuthOptions)
    (sw : swarm.SwarmOptions) (au : auth.AuthOptions)
    (en : engine.EngineOptions) (st : St Part000.CentosProvisioner)
    (pkg : string) (before after : list Event) (e : error) :
  let run :=
    Part000.Provision respond maxAttempts Quote setRemoteAuthOptions
      sw au en st in
  let install := RunSSHCommandFromDriver (installCommand pkg) in
  log (fst run) = log st ++ before ++ install :: after ->
  respond (log st ++ before) install = Some e ->
  snd run = inl e /\
  after = [] /\
  ~ In (RunSSHCommandFromDriver firewalldCommand) (before ++ [install]).
Proof.
  intros run install Hlog Hfail.
  destruct (Part000_Provision_run respond maxAttempts
              Quote setRemoteAuthOptions sw au en st)
    as (issued & k & Hissued & _ & Hpre & Hstop & _ & _).
  fold run in Hissued, Hstop.
  rewrite Hlog in Hissued. apply app_inv_head in Hissued.
  assert (Hne : install <> probeCall) by (unfold install; discriminate).
  destruct (Hstop before install after e (eq_sym Hissued) Hne Hfail)
    as [Hafter Hres].
  split; [exact Hres|]. split; [exact Hafter|].
  subst after. intros Hin.
  unfold Part000_schedule, callsBeforeWait in Hpre.
  rewrite <- Hissued in Hpre.
  set (early := [sudoersFixCommand]
                ++ hostnameCommands Quote
                     (drivers.GetMachineName (Part000.Driver (self st)))
                ++ ["yum -y update"]
                ++ map installCommand (Part000.packages (self st))) in *.
  assert (Hshape :
    (map RunSSHCommandFromDriver
       ([sudoersFixCommand]
        ++ hostnameCommands Quote
             (drivers.GetMachineName (Part000.Driver (self st)))
        ++ ["yum -y update"]
        ++ map installCommand (Part000.packages (self st))
        ++ [firewalldCommand])
     ++ [Call_installDockerGeneric])
    ++ repeat probeCall k ++ Part000_callsAfterWait
    = map RunSSHCommandFromDriver early
      ++ ([RunSSHCommandFromDriver firewalldCommand;
           Call_installDockerGeneric]
          ++ repeat probeCall k ++ Part000_callsAfterWait)).
  { unfold early. rewrite !app_assoc. rewrite map_app.
    rewrite <- !app_assoc. reflexivity. }
  rewrite Hshape in Hpre.
  destruct (Prefix_In_split _ _ _ _ Hpre Hin
              (firewalld_not_earlier Quote _ _))
    as (late & Hsplit & Hlate).
  assert (Hlate_ne : late <> []).
  { intros ->. rewrite app_nil_r in Hsplit. rewrite Hsplit in Hin.
    exact (firewalld_not_earlier Quote _ _ Hin). }
  apply (installCommand_not_later pkg k).
  apply (Prefix_In _ _ _ Hlate).
  apply (last_of_suffix _ _ _ _ (eq_sym Hsplit) Hlate_ne).
Qed.

(** ** A successful run on the sample inputs *)

(** On a channel where every call succeeds, the run on a fresh provisioner
    returns no error, and the installation of curl is in its log once. *)
Lemma Part000_Provision_installs_curl_once_before_engine_witness :
  let run :=
    Part000.Provision alwaysOk 3 quotePlain Part000.GetAuthOptions
      swarm_zero auth_zero engine_zero
      (mkSt (Part000.NewCentosProvisioner sampleDriver) []) in
  let installCurl := RunSSHCommandFromDriver "sudo -E yum -y install curl" in
  snd run = inr tt /\
  (Part000.packages (Part000.NewCentosProvisioner sampleDriver) = ["curl"] /\
   count_occ Event_eq_dec (log (fst run)) installCurl = 1 /\
   exists k before between after,
     1 <= k <= 3 /\
     log (fst run) =
       Part000_schedule quotePlain
         (Part000.NewCentosProvisioner sampleDriver) k /\
     log (fst run) =
       before ++ [installCurl] ++ between
       ++ [Call_installDockerGeneric] ++ after /\
     ~ In Call_installDockerGeneric before /\
     In (RunSSHCommandFromDriver "yum -y update") before).
Proof.
  split; [reflexivity|].
  apply (Part000_Provision_installs_curl_once_before_engine alwaysOk 3
           quotePlain Part000.GetAuthOptions sampleDriver
           swarm_zero auth_zero engine_zero).
  reflexivity.
Defined.

(** * Further facts about the provisioner *)

(** ** What [Provision] leaves in the receiver *)

(** One gated call of a run whose failure leaves the first alternative. *)
Ltac gate_or_stop :=
  rewrite bind_call; cbn [log self];
  match goal with
  | |- context [match ?respond ?tr ?ev with Some _ => _ | None => _ end] =>
      destruct (respond tr ev);
      [left; split; [reflexivity | discriminate] |]
  end.

(** The receiver at the end of a run of [Provision]. *)
Lemma Part000_Provision_self
    (respond : Oracle) (maxAttempts : nat) (Quote : string -> string)
    (setRemoteAuthOptions : Part000.CentosProvisioner -> auth.AuthOptions)
    (sw : swarm.SwarmOptions) (au : auth.AuthOptions)
    (en : engine.EngineOptions) (st : St Part000.CentosProvisioner) :
  let run :=
    Part000.Provision respond maxAttempts Quote setRemoteAuthOptions
      sw au en st in
  let stored :=
    Part000.set_EngineOptions
      (Part000.set_AuthOptions (Part000.set_SwarmOptions (self st) sw) au)
      en in
  (self (fst run) = stored /\ snd run <> inr tt) \/
  (self (fst run) =
     Part000.set_AuthOptions stored (setRemoteAuthOptions stored) /\
   In Call_ConfigureAuth (log (fst run))).
Proof.
  intros run stored. subst run.
  unfold Part000.Provision, Part000.SetHostname, Part000.SSHCommand.
  rewrite bind_get_self, bind_set_self. fold stored.
  gate_or_stop. rewrite bind_get_self. cbn [self]. rewrite bind_assoc.
  gate_or_stop. gate_or_stop. gate_or_stop.
  rewrite bind_get_self. cbn [self].
  rewrite (bind_forEach_call _ respond
             (fun x => RunSSHCommandFromDriver (installCommand x)))
    by reflexivity.
  cbn [log self].
  destruct (spec_gates respond _ _) as [tr1 [e|]];
    [left; split; [reflexivity | discriminate] |].
  gate_or_stop. gate_or_stop.
  rewrite (bind_WaitFor _ respond _ probeCall) by apply Part000_probe_eq.
  cbn [log self].
  destruct (spec_poll respond _ _ _) as [tr2 [|]];
    [| left; split; [reflexivity | discriminate]].
  gate_or_stop.
  rewrite bind_get_self, bind_set_self. cbn [log self].
  right. rewrite bind_call. cbn [log self].
  destruct (respond _ Call_ConfigureAuth).
  - split; [reflexivity|]. cbn [fst log]. apply in_or_app. right. now left.
  - rewrite call_eq. cbn [fst log self]. split; [reflexivity|].
    apply in_or_app. left. apply in_or_app. right. now left.
Qed.

(** The log of a leaf of the run, as the log before the run and the
    calls issued since. *)
Ltac issued_so_far :=
  eexists; split; [cbn [fst log]; rewrite <- ?app_assoc; reflexivity|].

(** A leaf that ends before any collaborator was invoked. *)
Ltac stopped_early :=
  issued_so_far; left; split; [reflexivity | discriminate].

(** A leaf that ends after the engine installation was invoked. *)
Ltac engine_invoked :=
  issued_so_far; right; rewrite ?in_app_iff; cbn [In]; intuition auto.

(** One gated call whose failure is a leaf of the given kind. *)
Ltac gate_then leaf :=
  rewrite bind_call; cbn [log self];
  match goal with
  | |- context [match ?respond ?tr ?ev with Some _ => _ | None => _ end] =>
      destruct (respond tr ev); [leaf |]
  end.

(** The receiver of a run of [Provision] that has not yet invoked a
    collaborator. *)
Lemma Part000_Provision_self_before_collaborators
    (respond : Oracle) (maxAttempts : nat) (Quote : string -> string)
    (setRemoteAuthOptions : Part000.CentosProvisioner -> auth.AuthOptions)
    (sw : swarm.SwarmOptions) (au : auth.AuthOptions)
    (en : engine.EngineOptions) (st : St Part000.CentosProvisioner) :
  let run :=
    Part000.Provision respond maxAttempts Quote setRemoteAuthOptions
      sw au en st in
  let stored :=
    Part000.set_EngineOptions
      (Part000.set_AuthOptions (Part000.set_SwarmOptions (self st) sw) au)
      en in
  exists issued,
    log (fst run) = log st ++ issued /\
    ((self (fst run) = stored /\ snd run <> inr tt) \/
     In Call_installDockerGeneric issued).
Proof.
  intros run stored. subst run.
  unfold Part000.Provision, Part000.SetHostname, Part000.SSHCommand.
  rewrite bind_get_self, bind_set_self. fold stored.
  gate_then stopped_early.
  rewrite bind_get_self. cbn [self]. rewrite bind_assoc.
  gate_then stopped_early. gate_then stopped_early. gate_then stopped_early.
  rewrite bind_get_self. cbn [self].
  rewrite (bind_forEach_call _ respond
             (fun x => RunSSHCommandFromDriver (installCommand x)))
    by reflexivity.
  cbn [log self].
  match goal with
  | |- context [spec_gates respond ?evs ?tr] =>
      destruct (spec_gates_sound respond probeCall evs tr)
        as (i1 & Hlog1 & _);
      destruct (spec_gates respond evs tr) as [tr1 [e|]]
  end; cbn [fst] in Hlog1; subst tr1; [stopped_early|].
  gate_then stopped_early. gate_then engine_invoked.
  rewrite (bind_WaitFor _ respond _ probeCall) by apply Part000_probe_eq.
  cbn [log self].
  match goal with
  | |- context [spec_poll respond probeCall ?n ?tr] =>
      destruct (spec_poll_sound respond probeCall n tr)
        as (k & _ & Hlog2 & _);
      destruct (spec_poll respond probeCall n tr) as [tr2 [|]]
  end; cbn [fst] in Hlog2; subst tr2; [|engine_invoked].
  gate_then engine_invoked.
  rewrite bind_get_self, bind_set_self. cbn [log self].
  gate_then engine_invoked.
  rewrite call_eq. engine_invoked.
Qed.

(** X1.  [Provision] stores the three option bundles it is given before
    it makes its first call, and nothing of its own code changes the
    receiver again before the first collaborator is handed it: in a run
    that ends without the engine installation having been invoked, the
    receiver holds exactly the options given, every other field is as it
    was, and the run has returned an error. *)
Theorem Part000_Provision_stores_options_first
    (respond : Oracle) (maxAttempts : nat) (Quote : string -> string)
    (setRemoteAuthOptions : Part000.CentosProvisioner -> auth.AuthOptions)
    (sw : swarm.SwarmOptions) (au : auth.AuthOptions)
    (en : engine.EngineOptions) (st : St Part000.CentosProvisioner) :
  let run :=
    Part000.Provision respond maxAttempts Quote setRemoteAuthOptions
      sw au en st in
  exists issued,
    log (fst run) = log st ++ issued /\
    (~ In Call_installDockerGeneric issued ->
     self (fst run) =
       {| Part000.packages := Part000.packages (self st);
          Part000.OsReleaseInfo := Part000.OsReleaseInfo (self st);
          Part000.Driver := Part000.Driver (self st);
          Part000.AuthOptions := au;
          Part000.EngineOptions := en;
          Part000.SwarmOptions := sw |} /\
     snd run <> inr tt).
Proof.
  intros run.
  destruct (Part000_Provision_self_before_collaborators respond maxAttempts
              Quote setRemoteAuthOptions sw au en st)
    as (issued & Hlog & [Hstored|Hin]).
  - exists issued. split; [exact Hlog|]. intros _. exact Hstored.
  - exists issued. split; [exact Hlog|]. intros Hnot. now elim Hnot.
Qed.

(** The same step for a run that leaves its receiver alone. *)
Ltac gate_or_same :=
  rewrite bind_call; cbn [log self];
  match goal with
  | |- context [match ?respond ?tr ?ev with Some _ => _ | None => _ end] =>
      destruct (respond tr ev); [reflexivity |]
  end.

(** X2.  [Provision] of libmachine/provision/centos.go never writes to its
    receiver: whatever the calls do and wherever the run stops, the
    provisioner after the run is the provisioner before it. *)
Theorem CentosGo_Provision_keeps_receiver
    (respond : Oracle) (maxAttempts : nat) (Quote : string -> string)
    (sw : swarm.SwarmOptions) (au : auth.AuthOptions)
    (st : St CentosGo.CentosProvisioner) :
  self (fst (CentosGo.Provision respond maxAttempts Quote sw au st)) = self st.
Proof.
  unfold CentosGo.Provision, CentosGo.SetHostname, CentosGo.SSHCommand.
  gate_or_same. rewrite bind_get_self. cbn [self]. rewrite bind_assoc.
  gate_or_same. gate_or_same. gate_or_same.
  rewrite bind_get_self. cbn [self].
  rewrite (bind_forEach_call _ respond
             (fun x => RunSSHCommandFromDriver (installCommand x)))
    by reflexivity.
  cbn [log self].
  destruct (spec_gates respond _ _) as [tr1 [e|]]; [reflexivity|].
  gate_or_same. gate_or_same.
  rewrite (bind_WaitFor _ respond _ probeCall) by apply CentosGo_probe_eq.
  cbn [log self].
  destruct (spec_poll respond _ _ _) as [tr2 [|]]; [|reflexivity].
  gate_or_same. rewrite call_eq. reflexivity.
Qed.

(** ** Runs on particular channels *)

Section Channels.

Variable respond : Oracle.

Lemma spec_gates_all_ok (evs tr : list Event) :
  (forall ev, In ev evs -> forall tr', respond tr' ev = None) ->
  spec_gates respond evs tr = (tr ++ evs, None).
Proof.
  revert tr. induction evs as [|ev evs IH]; intros tr Hok; simpl.
  - now rewrite app_nil_r.
  - rewrite (Hok ev (or_introl eq_refl)).
    rewrite IH by (intros ev' Hin; apply Hok; now right).
    now rewrite <- app_assoc.
Qed.

Lemma spec_poll_first_ok (probe : Event) (n : nat) (tr : list Event) :
  respond tr probe = None ->
  spec_poll respond probe (S n) tr = (tr ++ [probe], true).
Proof. intros H. simpl. now rewrite H. Qed.

Lemma spec_poll_never (probe : Event) (n : nat) (tr : list Event) :
  (forall tr', respond tr' probe <> None) ->
  spec_poll respond probe n tr = (tr ++ repeat probe n, false).
Proof.
  intros Hnever. revert tr. induction n as [|n IH]; intros tr; simpl.
  - now rewrite app_nil_r.
  - destruct (respond tr probe) as [e|] eqn:Hr.
    + rewrite IH. now rewrite <- app_assoc.
    + now elim (Hnever tr).
Qed.

End Channels.

Lemma callsBeforeWait_not_probe (Quote : string -> string) (name : string)
    (pkgs : list string) (ev : Event) :
  In ev (callsBeforeWait Quote name pkgs) -> ev <> probeCall.
Proof.
  unfold callsBeforeWait. intros Hin Heq. subst ev.
  apply in_app_or in Hin. destruct Hin as [Hin|[H|[]]]; [|discriminate H].
  apply in_map_iff in Hin. destruct Hin as (c & Hc & Hin).
  injection Hc as Hc.
  destruct Hin as [H|[H|[H|[H|Hin]]]];
    try (rewrite <- H in Hc; discriminate Hc).
  cbn [app] in Hin.
  apply in_app_or in Hin. destruct Hin as [Hin|[H|[]]].
  - apply in_map_iff in Hin. destruct Hin as (pkg & Hpkg & _).
    rewrite <- Hpkg in Hc. discriminate Hc.
  - rewrite <- H in Hc. discriminate Hc.
Qed.

Lemma outcome_ok {P} (r : St P * (error + unit)) (tr : list Event) :
  outcome r = (tr, None) -> snd r = inr tt /\ log (fst r) = tr.
Proof.
  unfold outcome. intros H. injection H as Hlog Hres.
  split; [|exact Hlog]. destruct (snd r) as [e|[]]; [discriminate | reflexivity].
Qed.

Lemma outcome_error {P} (r : St P * (error + unit)) (tr : list Event)
    (e : error) :
  outcome r = (tr, Some e) -> snd r = inl e /\ log (fst r) = tr.
Proof.
  unfold outcome. intros H. injection H as Hlog Hres.
  split; [|exact Hlog]. destruct (snd r) as [e'|[]]; [congruence | discriminate].
Qed.

(** X3.  On a channel where every call succeeds, and with at least one
    attempt allowed to the poller, [Provision] returns no error and has made
    exactly the calls of the schedule with a single probe. *)
Theorem Part000_Provision_succeeds_when_all_calls_do
    (respond : Oracle) (maxAttempts : nat) (Quote : string -> string)
    (setRemoteAuthOptions : Part000.CentosProvisioner -> auth.AuthOptions)
    (sw : swarm.SwarmOptions) (au : auth.AuthOptions)
    (en : engine.EngineOptions) (st : St Part000.CentosProvisioner) :
  (forall tr ev, respond tr ev = None) ->
  1 <= maxAttempts ->
  let run :=
    Part000.Provision respond maxAttempts Quote setRemoteAuthOptions
      sw au en st in
  snd run = inr tt /\
  log (fst run) = log st ++ Part000_schedule Quote (self st) 1.
Proof.
  intros Hall Hmax run.
  pose proof (Part000_Provision_refines respond maxAttempts Quote
                setRemoteAuthOptions sw au en st) as Href.
  fold run in Href. unfold spec_bootstrap in Href.
  rewrite spec_gates_all_ok in Href by (intros; apply Hall).
  destruct maxAttempts as [|n]; [lia|].
  rewrite spec_poll_first_ok in Href by apply Hall.
  rewrite spec_gates_all_ok in Href by (intros; apply Hall).
  apply outcome_ok in Href. destruct Href as [Hres Hlog].
  split; [exact Hres|]. rewrite Hlog.
  unfold Part000_schedule. cbn [repeat]. now rewrite <- !app_assoc.
Qed.

(** X4.  On a channel where the daemon never answers and every other call
    succeeds, [Provision] returns the error of the poller after exactly the
    allowed number of probes, and makes no call after the last probe: the
    options directory, the auth configuration and the swarm configuration
    are never reached. *)
Theorem Part000_Provision_times_out_when_daemon_never_answers
    (respond : Oracle) (maxAttempts : nat) (Quote : string -> string)
    (setRemoteAuthOptions : Part000.CentosProvisioner -> auth.AuthOptions)
    (sw : swarm.SwarmOptions) (au : auth.AuthOptions)
    (en : engine.EngineOptions) (st : St Part000.CentosProvisioner) :
  (forall tr ev, ev <> probeCall -> respond tr ev = None) ->
  (forall tr, respond tr probeCall <> None) ->
  let run :=
    Part000.Provision respond maxAttempts Quote setRemoteAuthOptions
      sw au en st in
  snd run = inl ReadinessTimeoutError /\
  log (fst run) =
    log st
    ++ callsBeforeWait Quote
         (drivers.GetMachineName (Part000.Driver (self st)))
         (Part000.packages (self st))
    ++ repeat probeCall maxAttempts.
Proof.
  intros Hother Hnever run.
  pose proof (Part000_Provision_refines respond maxAttempts Quote
                setRemoteAuthOptions sw au en st) as Href.
  fold run in Href. unfold spec_bootstrap in Href.
  rewrite spec_gates_all_ok in Href
    by (intros ev Hin tr'; apply Hother;
        exact (callsBeforeWait_not_probe _ _ _ _ Hin)).
  rewrite spec_poll_never in Href by exact Hnever.
  apply outcome_error in Href. destruct Href as [Hres Hlog].
  split; [exact Hres|]. rewrite Hlog. now rewrite <- app_assoc.
Qed.

Lemma filter_isCommand_commands (cmds : list string) :
  filter isCommand (map RunSSHCommandFromDriver cmds) =
  map RunSSHCommandFromDriver cmds.
Proof.
  induction cmds as [|c cmds IH]; simpl; [reflexivity | now rewrite IH].
Qed.

Lemma filter_isCommand_probes (k : nat) :
  filter isCommand (repeat probeCall k) = repeat probeCall k.
Proof.
  induction k as [|k IH]; simpl; [reflexivity | now rewrite IH].
Qed.

Lemma Prefix_filter_length (f : Event -> bool) (l1 l2 : list Event) :
  Prefix l1 l2 -> length (filter f l1) <= length (filter f l2).
Proof. intros [rest ->]. rewrite filter_app, length_app. lia. Qed.

(** X5.  Whatever the channel does, the statements of [Provision] itself
    send at most five commands over the channel besides one per baseline
    package and one per allowed probe in a run; what the collaborators
    send on their own is not counted, a collaborator being one entry of the
    log. *)
Theorem Part000_Provision_own_command_bound
    (respond : Oracle) (maxAttempts : nat) (Quote : string -> string)
    (setRemoteAuthOptions : Part000.CentosProvisioner -> auth.AuthOptions)
    (sw : swarm.SwarmOptions) (au : auth.AuthOptions)
    (en : engine.EngineOptions) (st : St Part000.CentosProvisioner) :
  let run :=
    Part000.Provision respond maxAttempts Quote setRemoteAuthOptions
      sw au en st in
  exists issued,
    log (fst run) = log st ++ issued /\
    length (filter isCommand issued) <=
    5 + length (Part000.packages (self st)) + maxAttempts.
Proof.
  intros run.
  destruct (Part000_Provision_run respond maxAttempts Quote
              setRemoteAuthOptions sw au en st)
    as (issued & k & Hlog & Hk & Hpre & _).
  fold run in Hlog. exists issued. split; [exact Hlog|].
  eapply Nat.le_trans; [apply (Prefix_filter_length isCommand _ _ Hpre)|].
  unfold Part000_schedule, callsBeforeWait, hostnameCommands,
    Part000_callsAfterWait.
  rewrite !filter_app, filter_isCommand_commands, filter_isCommand_probes.
  rewrite !length_app, length_map, !length_app, length_map, repeat_length.
  cbn. lia.
Qed.

(** Witness of X3: the sample channel on which every call succeeds. *)
Lemma Part000_Provision_succeeds_when_all_calls_do_witness :
  let run :=
    Part000.Provision alwaysOk 3 quotePlain Part000.GetAuthOptions
      swarm_zero auth_zero engine_zero
      (mkSt (Part000.NewCentosProvisioner sampleDriver) []) in
  (forall tr ev, alwaysOk tr ev = None) /\
  1 <= 3 /\
  snd run = inr tt /\
  log (fst run) =
    [] ++ Part000_schedule quotePlain
            (Part000.NewCentosProvisioner sampleDriver) 1.
Proof.
  split; [intros tr ev; reflexivity|]. split; [lia|].
  apply (Part000_Provision_succeeds_when_all_calls_do alwaysOk 3 quotePlain
           Part000.GetAuthOptions swarm_zero auth_zero engine_zero
           (mkSt (Part000.NewCentosProvisioner sampleDriver) [])).
  - intros tr ev. reflexivity.
  - lia.
Defined.

(** Witness of X4: the sample channel on which the daemon never answers. *)
Lemma Part000_Provision_times_out_when_daemon_never_answers_witness :
  let run :=
    Part000.Provision neverReady 3 quotePlain Part000.GetAuthOptions
      swarm_zero auth_zero engine_zero
      (mkSt (Part000.NewCentosProvisioner sampleDriver) []) in
  (forall tr ev, ev <> probeCall -> neverReady tr ev = None) /\
  (forall tr, neverReady tr probeCall <> None) /\
  snd run = inl ReadinessTimeoutError /\
  log (fst run) =
    [] ++ callsBeforeWait quotePlain "node1" ["curl"] ++ repeat probeCall 3.
Proof.
  assert (H1 : forall tr ev, ev <> probeCall -> neverReady tr ev = None).
  { intros tr ev Hne. unfold neverReady.
    destruct (Event_eq_dec ev probeCall); [contradiction | reflexivity]. }
  assert (H2 : forall tr, neverReady tr probeCall <> None).
  { intros tr. unfold neverReady.
    destruct (Event_eq_dec probeCall probeCall); [discriminate | contradiction]. }
  split; [exact H1|]. split; [exact H2|].
  exact (Part000_Provision_times_out_when_daemon_never_answers neverReady 3
           quotePlain Part000.GetAuthOptions swarm_zero auth_zero engine_zero
           (mkSt (Part000.NewCentosProvisioner sampleDriver) []) H1 H2).
Defined.

(** ** No resume and no second attempt *)

Lemma Prefix_count_occ (ev : Event) (l1 l2 : list Event) :
  Prefix l1 l2 ->
  count_occ Event_eq_dec l1 ev <= count_occ Event_eq_dec l2 ev.
Proof. intros [rest ->]. rewrite count_occ_app. lia. Qed.

Lemma count_occ_map_ssh_call (cmds : list string) (ev : Event) :
  (forall c, ev <> RunSSHCommandFromDriver c) ->
  count_occ Event_eq_dec (map RunSSHCommandFromDriver cmds) ev = 0.
Proof.
  intros Hne. apply count_occ_not_In. intros Hin.
  apply in_map_iff in Hin. destruct Hin as (c & Hc & _).
  exact (Hne c (eq_sym Hc)).
Qed.

(** X6.  A run of [Provision] never resumes and never repeats a
    collaborator: it makes at least one call, its first call is the sudoers
    fix whatever the receiver and the log were, and each of the engine
    installation, the options directory, the auth configuration and the
    swarm configuration is invoked at most once. *)
Theorem Part000_Provision_starts_over_and_attempts_once
    (respond : Oracle) (maxAttempts : nat) (Quote : string -> string)
    (setRemoteAuthOptions : Part000.CentosProvisioner -> auth.AuthOptions)
    (sw : swarm.SwarmOptions) (au : auth.AuthOptions)
    (en : engine.EngineOptions) (st : St Part000.CentosProvisioner) :
  let run :=
    Part000.Provision respond maxAttempts Quote setRemoteAuthOptions
      sw au en st in
  exists more,
    log (fst run) =
      log st ++ RunSSHCommandFromDriver sudoersFixCommand :: more /\
    count_occ Event_eq_dec more Call_installDockerGeneric <= 1 /\
    count_occ Event_eq_dec more Call_makeDockerOptionsDir <= 1 /\
    count_occ Event_eq_dec more Call_ConfigureAuth <= 1 /\
    count_occ Event_eq_dec more Call_configureSwarm <= 1.
Proof.
  intros run.
  destruct (Part000_Provision_run respond maxAttempts Quote
              setRemoteAuthOptions sw au en st)
    as (issued & k & Hlog & Hk & Hpre & _ & Hok & Herr).
  fold run in Hlog, Hok, Herr.
  assert (Hne : issued <> []).
  { intros ->. destruct (snd run) as [e|[]] eqn:Hres.
    - destruct (Herr e eq_refl) as [(b & ev & Hb & _)|[_ Hb]].
      + now destruct b.
      + discriminate Hb.
    - destruct (Hok eq_refl) as [Hb _]. discriminate Hb. }
  unfold Part000_schedule, callsBeforeWait, hostnameCommands,
    Part000_callsAfterWait in Hpre.
  cbn [map app] in Hpre.
  destruct issued as [|first more]; [contradiction|].
  destruct Hpre as [rest Hrest]. cbn [app] in Hrest.
  injection Hrest as Hfirst Hmore. subst first.
  exists more. split; [exact Hlog|].
  assert (Hp : Prefix more
    (map RunSSHCommandFromDriver
       (hostnameCommands Quote
          (drivers.GetMachineName (Part000.Driver (self st)))
        ++ ["yum -y update"]
        ++ map installCommand (Part000.packages (self st))
        ++ [firewalldCommand])
     ++ [Call_installDockerGeneric]
     ++ repeat probeCall k
     ++ [Call_makeDockerOptionsDir; Call_ConfigureAuth; Call_configureSwarm])).
  { exists rest. rewrite <- Hmore. unfold hostnameCommands. cbn [map app].
    now rewrite <- !app_assoc. }
  repeat split.
  all: eapply Nat.le_trans; [apply (Prefix_count_occ _ _ _ Hp)|].
  all: rewrite !count_occ_app, count_occ_map_ssh_call by (intros c; discriminate).
  all: rewrite count_occ_repeat_neq by (unfold probeCall; discriminate).
  all: cbn; lia.
Qed.

(** ** The package translator, continued *)

(** X7.  [Package] on the integers, the three constants being pairwise
    different.  On a constant it is [Package] as given for the three
    actions.  On any other value the switch matches no case and the command
    is sent with an empty verb, with no error of its own.  Two requests
    that log the same command have the same package name, and the same
    action unless both actions are outside the three constants: the
    command tells the three actions apart, and no others. *)
Theorem Part000_Package_int_commands
    (respond : Oracle) (Install Remove Upgrade : Z) :
  Install <> Remove -> Install <> Upgrade -> Remove <> Upgrade ->
  (forall name a st,
     Part000_Package_int respond Install Remove Upgrade name
       (PackageAction_value Install Remove Upgrade a) st =
     Part000.Package respond name a st) /\
  (forall name action st,
     action <> Install -> action <> Remove -> action <> Upgrade ->
     Part000_Package_int respond Install Remove Upgrade name action st =
     call respond
       (RunSSHCommandFromDriver ("sudo -E yum -y  " +++ name)) st) /\
  (forall name1 name2 action1 action2 st,
     log (fst (Part000_Package_int respond Install Remove Upgrade
                 name1 action1 st)) =
     log (fst (Part000_Package_int respond Install Remove Upgrade
                 name2 action2 st)) ->
     name1 = name2 /\
     (action1 = action2 \/
      (action1 <> Install /\ action1 <> Remove /\ action1 <> Upgrade /\
       action2 <> Install /\ action2 <> Remove /\ action2 <> Upgrade))).
Proof.
  intros HIR HIU HRU. split; [|split].
  - intros name a st. unfold Part000_Package_int, Part000.Package.
    destruct a; cbn [PackageAction_value].
    + now rewrite Z.eqb_refl.
    + destruct (Z.eqb_spec Remove Install) as [E|_]; [now elim HIR|].
      now rewrite Z.eqb_refl.
    + destruct (Z.eqb_spec Upgrade Install) as [E|_]; [now elim HIU|].
      destruct (Z.eqb_spec Upgrade Remove) as [E|_]; [now elim HRU|].
      now rewrite Z.eqb_refl.
  - intros name action st H1 H2 H3. unfold Part000_Package_int.
    destruct (Z.eqb_spec action Install) as [E|_]; [contradiction|].
    destruct (Z.eqb_spec action Remove) as [E|_]; [contradiction|].
    destruct (Z.eqb_spec action Upgrade) as [E|_]; [contradiction|].
    reflexivity.
  - intros name1 name2 action1 action2 st.
    unfold Part000_Package_int, Part000.SSHCommand. rewrite !call_eq.
    cbn [fst log]. intros Heq. apply app_inv_head in Heq.
    injection Heq as Heq.
    destruct (Z.eqb_spec action1 Install) as [E1|N1];
      [|destruct (Z.eqb_spec action1 Remove) as [E1|N1'];
        [|destruct (Z.eqb_spec action1 Upgrade) as [E1|N1'']]];
    (destruct (Z.eqb_spec action2 Install) as [E2|N2];
      [|destruct (Z.eqb_spec action2 Remove) as [E2|N2'];
        [|destruct (Z.eqb_spec action2 Upgrade) as [E2|N2'']]]);
    cbn in Heq; try discriminate Heq;
    (split; [repeat injection Heq as Heq; exact Heq|]);
    first [left; congruence | right; repeat split; assumption].
Qed.

(** Witness of X7: the constants numbered from zero in the order of their
    declaration. *)
Lemma Part000_Package_int_commands_witness :
  (0 <> 1)%Z /\ (0 <> 2)%Z /\ (1 <> 2)%Z /\
  (forall name action st,
     action <> 0%Z -> action <> 1%Z -> action <> 2%Z ->
     Part000_Package_int alwaysOk 0 1 2 name action st =
     call alwaysOk
       (RunSSHCommandFromDriver ("sudo -E yum -y  " +++ name)) st).
Proof.
  assert (H01 : (0 <> 1)%Z) by lia.
  assert (H02 : (0 <> 2)%Z) by lia.
  assert (H12 : (1 <> 2)%Z) by lia.
  split; [exact H01|]. split; [exact H02|]. split; [exact H12|].
  exact (proj1 (proj2 (Part000_Package_int_commands alwaysOk 0 1 2
                         H01 H02 H12))).
Defined.

(** ** The renderer, continued *)

(** X8.  On a provisioner fresh from [NewCentosProvisioner], whose label
    list is nil and shared with no one, every call of
    [GenerateDockerOptions] adds one more copy of the provider label to the
    stored labels and changes nothing else: after [n] calls in a row the
    receiver is the fresh provisioner with [n] provider labels, and the
    text of the next call is [n] label lines longer than the text of a
    first call. *)
Theorem Part000_GenerateDockerOptions_labels_accumulate_on_fresh
    (n : nat) (d : drivers.Driver) (port : Z) :
  let p_n :=
    Part000_GenerateDockerOptions_times n (Part000.NewCentosProvisioner d)
      port in
  p_n =
    {| Part000.packages := ["curl"];
       Part000.OsReleaseInfo := None;
       Part000.Driver := d;
       Part000.AuthOptions := auth_zero;
       Part000.EngineOptions :=
         {| engine.StorageDriver := "";
            engine.Labels := repeat (providerLabel d) n;
            engine.InsecureRegistry := [];
            engine.RegistryMirror := [];
            engine.ArbitraryFlags := [] |};
       Part000.SwarmOptions := swarm_zero |} /\
  String.length (content (snd (Part000.GenerateDockerOptions p_n port))) =
    String.length
      (content (snd (Part000.GenerateDockerOptions
                       (Part000.NewCentosProvisioner d) port)))
    + n * String.length ("--label " +++ providerLabel d +++ nl).
Proof.
  induction n as [|n IH]; cbn zeta.
  - split; [reflexivity|]. cbn [Part000_GenerateDockerOptions_times]. lia.
  - cbn zeta in IH. destruct IH as [Hrec Hlen].
    cbn [Part000_GenerateDockerOptions_times].
    set (q := Part000_GenerateDockerOptions_times n
                (Part000.NewCentosProvisioner d) port) in *.
    split.
    + rewrite Hrec.
      cbn [Part000.GenerateDockerOptions fst Part000.set_EngineOptions
           engine.set_Labels Part000.EngineOptions Part000.Driver
           Part000.packages Part000.OsReleaseInfo Part000.AuthOptions
           Part000.SwarmOptions engine.Labels engine.StorageDriver
           engine.InsecureRegistry engine.RegistryMirror
           engine.ArbitraryFlags].
      fold (providerLabel d). rewrite <- repeat_cons. reflexivity.
    + pose proof (Part000_GenerateDockerOptions_second_call_longer q port)
        as Hstep.
      cbv zeta in Hstep. rewrite Hstep, Hlen.
      replace (Part000.Driver q) with d by (rewrite Hrec; reflexivity).
      cbn [Nat.mul]. lia.
Qed.

(** X9.  The renderer does not escape what it prints: a label that holds a
    line feed followed by the label flag renders the same text as the two
    labels it is made of, so the text does not determine the label list. *)
Theorem Part000_GenerateDockerOptions_label_not_escaped
    (p : Part000.CentosProvisioner) (port : Z)
    (front back : list string) (x y : string) :
  let with_labels ls :=
    Part000.set_EngineOptions p
      (engine.set_Labels (Part000.EngineOptions p) ls) in
  content (snd (Part000.GenerateDockerOptions
                  (with_labels (front ++ [x +++ nl +++ "--label " +++ y] ++ back))
                  port)) =
  content (snd (Part000.GenerateDockerOptions
                  (with_labels (front ++ [x; y] ++ back)) port)).
Proof.
  cbv zeta. rewrite !Part000_GenerateDockerOptions_text.
  unfold Part000.engineConfigTmpl.
  cbn [Part000.EngineConfigContext.DockerPort
       Part000.EngineConfigContext.AuthOptions
       Part000.EngineConfigContext.EngineOptions
       engine.set_Labels engine.Labels engine.StorageDriver
       engine.InsecureRegistry engine.RegistryMirror engine.ArbitraryFlags
       Part000.set_EngineOptions Part000.EngineOptions Part000.AuthOptions
       Part000.Driver].
  do 16 f_equal.
  rewrite <- !app_assoc, !range_app. do 2 f_equal.
  cbn [app range]. rewrite !append_assoc. reflexivity.
Qed.

Lemma append_inv_head (a x y : string) : a +++ x = a +++ y -> x = y.
Proof.
  induction a as [|ch a IH]; cbn [String.append]; intros H; [exact H|].
  injection H as H. exact (IH H).
Qed.

Lemma append_inv_tail_same_length (r x y : string) :
  String.length x = String.length y -> x +++ r = y +++ r -> x = y.
Proof.
  revert y. induction x as [|ch x IH]; intros [|ch' y] Hlen H;
    cbn [String.length] in Hlen; try discriminate Hlen; [reflexivity|].
  cbn [String.append] in H. injection H as Hch H.
  subst ch'. f_equal. apply IH; [lia | exact H].
Qed.

Lemma append_inv_tail (r x y : string) : x +++ r = y +++ r -> x = y.
Proof.
  intros H. apply (append_inv_tail_same_length r); [|exact H].
  apply (f_equal String.length) in H. rewrite !length_append in H. lia.
Qed.

(** The decimal rendering tells the numbers apart. *)
Lemma itoa_inj (a b : Z) : itoa a = itoa b -> a = b.
Proof.
  assert (Hnorm : forall z,
             Z.to_int z <> Decimal.Pos Decimal.Nil /\
             Z.to_int z <> Decimal.Neg Decimal.Nil).
  { intros z. split; intros Habs;
      pose proof (DecimalZ.of_to z) as Hof; rewrite Habs in Hof;
      cbn in Hof; subst z; discriminate Habs. }
  unfold itoa. intros H.
  apply DecimalZ.to_int_inj.
  destruct (Hnorm a) as [Ha1 Ha2]. destruct (Hnorm b) as [Hb1 Hb2].
  pose proof (NilZero.isi (Z.to_int a) Ha1 Ha2) as Ia.
  pose proof (NilZero.isi (Z.to_int b) Hb1 Hb2) as Ib.
  rewrite H in Ia. rewrite Ia in Ib. now injection Ib.
Qed.

(** X10.  For one provisioner the rendered text tells the ports apart: if
    two ports give the same text they are the same port.  This holds of
    both revisions. *)
Theorem GenerateDockerOptions_port_injective :
  (forall (p : Part000.CentosProvisioner) (port1 port2 : Z),
     content (snd (Part000.GenerateDockerOptions p port1)) =
     content (snd (Part000.GenerateDockerOptions p port2)) ->
     port1 = port2) /\
  (forall (getDefaultDaemonOpts : string -> auth.AuthOptions -> string)
          (p : CentosGo.CentosProvisioner) (au : auth.AuthOptions)
          (port1 port2 : Z),
     content (snd (CentosGo.GenerateDockerOptions getDefaultDaemonOpts
                     p port1 au)) =
     content (snd (CentosGo.GenerateDockerOptions getDefaultDaemonOpts
                     p port2 au)) ->
     port1 = port2).
Proof.
  split.
  - intros p port1 port2 H.
    rewrite !Part000_GenerateDockerOptions_text in H.
    unfold Part000.engineConfigTmpl in H.
    cbn [Part000.EngineConfigContext.DockerPort] in H.
    do 4 apply append_inv_head in H.
    apply append_inv_tail in H. exact (itoa_inj _ _ H).
  - intros g p au port1 port2 H.
    cbn [content snd CentosGo.GenerateDockerOptions
         DockerOptions.EngineOptions] in H.
    do 3 apply append_inv_head in H.
    apply append_inv_tail in H.
    apply append_inv_head in H. exact (itoa_inj _ _ H).
Qed.

(** ** The host name *)

(** X11.  [Hostname] makes the one call hostname and leaves the receiver
    alone.  It returns an error exactly when the command fails or the
    reading of its output fails, and then the string it returns is empty,
    also when part of the output had been read; with no error it returns
    the output as delivered, trailing line feed included. *)
Theorem Hostname_result {P : Type}
    (respond : Oracle) (stdout : Outputs) (st : St P) :
  let ev := RunSSHCommandFromDriver "hostname" in
  let run := Hostname respond stdout st in
  fst run = mkSt (self st) (log st ++ [ev]) /\
  (snd (snd run) = None <->
   respond (log st) ev = None /\ readError (stdout (log st) ev) = None) /\
  (snd (snd run) <> None -> fst (snd run) = "") /\
  (snd (snd run) = None ->
   fst (snd run) = delivered (stdout (log st) ev)).
Proof.
  cbv zeta. unfold Hostname.
  destruct (respond (log st) (RunSSHCommandFromDriver "hostname")) as [e|].
  - cbn. repeat split; try discriminate; try reflexivity.
    intros [H _]. discriminate H.
  - destruct (readError (stdout (log st) (RunSSHCommandFromDriver "hostname")))
      as [e|]; cbn.
    + repeat split; try discriminate; try reflexivity.
      intros [_ H]. discriminate H.
    + repeat split; try reflexivity. intros H. now elim H.
Qed.

(** [SetHostname] followed by [Hostname] on the sample channel and output:
    three calls, and the name comes back with its line feed. *)
Example SetHostname_then_Hostname_sample :
  let st1 :=
    fst (Part000.SetHostname alwaysOk quotePlain "node1"
           (mkSt (Part000.NewCentosProvisioner sampleDriver) [])) in
  let run := Hostname alwaysOk node1Output st1 in
  length (log (fst run)) = 3 /\
  snd run = ("node1" +++ nl, None).
Proof. split; reflexivity. Qed.

(** X12.  [SetHostname] edits the hosts file only after the host name was
    set: if its first command fails, that command is its only call and
    its error is returned; otherwise the second command follows and decides
    the result.  The host name is written into both commands as given, and
    quoted only for the echo.  The receiver is left alone. *)
Theorem Part000_SetHostname_gates_hosts_edit
    (respond : Oracle) (Quote : string -> string) (hostname : string)
    (st : St Part000.CentosProvisioner) :
  let set_now :=
    RunSSHCommandFromDriver
      ("sudo hostname " +++ hostname +++ " && echo " +++ Quote hostname
       +++ " | sudo tee /etc/hostname") in
  let edit_hosts :=
    RunSSHCommandFromDriver
      ("sudo sed -i '/^127.0.0.1/ s/$/ " +++ hostname +++ "/' /etc/hosts") in
  let run := Part000.SetHostname respond Quote hostname st in
  self (fst run) = self st /\
  (forall e, respond (log st) set_now = Some e ->
     log (fst run) = log st ++ [set_now] /\ snd run = inl e) /\
  (respond (log st) set_now = None ->
     log (fst run) = log st ++ [set_now; edit_hosts] /\
     snd run =
       match respond (log st ++ [set_now]) edit_hosts with
       | Some e => inl e
       | None => inr tt
       end).
Proof.
  cbv zeta. unfold Part000.SetHostname, Part000.SSHCommand.
  rewrite bind_call, call_eq. cbn [log self].
  destruct (respond (log st) _) as [e|].
  - split; [reflexivity|]. split.
    + intros e' He'. injection He' as <-. split; reflexivity.
    + discriminate.
  - cbn [fst snd self log]. split; [reflexivity|]. split.
    + discriminate.
    + intros _. split; [|reflexivity]. now rewrite <- app_assoc.
Qed.

(** ** [Provision] and the other methods *)

(** X14.  The release information is a field of its own: a run of
    [Provision] and a call of [GenerateDockerOptions] leave it as it was,
    so [CompatibleWithHost] answers the same before and after either, and
    [SetOsReleaseInfo] changes nothing of what is rendered; of two calls
    of [SetOsReleaseInfo] the later one decides. *)
Theorem Part000_release_info_is_independent :
  (forall respond maxAttempts Quote setRemoteAuthOptions sw au en
          (st : St Part000.CentosProvisioner),
     Part000.CompatibleWithHost
       (self (fst (Part000.Provision respond maxAttempts Quote
                     setRemoteAuthOptions sw au en st))) =
     Part000.CompatibleWithHost (self st)) /\
  (forall p port,
     Part000.CompatibleWithHost (fst (Part000.GenerateDockerOptions p port)) =
     Part000.CompatibleWithHost p) /\
  (forall p info port,
     snd (Part000.GenerateDockerOptions (Part000.SetOsReleaseInfo p info) port) =
     snd (Part000.GenerateDockerOptions p port)) /\
  (forall p info1 info2,
     Part000.CompatibleWithHost
       (Part000.SetOsReleaseInfo (Part000.SetOsReleaseInfo p info1) info2) =
     Part000.CompatibleWithHost (Part000.SetOsReleaseInfo p info2)).
Proof.
  split; [|split; [|split]].
  - intros respond maxAttempts Quote sRAO sw au en st.
    destruct (Part000_Provision_self respond maxAttempts Quote
                sRAO sw au en st) as [[Hs _]|[Hs _]];
      rewrite Hs; reflexivity.
  - intros p port. reflexivity.
  - intros p info port. reflexivity.
  - intros p info1 info2. reflexivity.
Qed.

(** ** The service translator *)

(** [Service] makes one call, the service command for the name and the
    action, and returns what the channel answers. *)
Lemma Service_single_call {P ServiceAction : Type} (respond : Oracle)
    (ServiceAction_String : ServiceAction -> string)
    (name : string) (action : ServiceAction) (st : St P) :
  Service respond ServiceAction_String name action st =
  (mkSt (self st)
     (log st
      ++ [RunSSHCommandFromDriver
            ("sudo service " +++ name +++ " "
             +++ ServiceAction_String action)]),
   match respond (log st)
           (RunSSHCommandFromDriver
              ("sudo service " +++ name +++ " "
               +++ ServiceAction_String action)) with
   | Some e => inl e
   | None => inr tt
   end).
Proof. unfold Service. apply call_eq. Qed.

(** X15.  A command of [Service] is never a command of [Package], of
    either revision, whatever the names and the actions: the log tells the
    two translators apart. *)
Theorem Service_command_is_not_a_Package_command
    {ServiceAction : Type} (respond : Oracle)
    (ServiceAction_String : ServiceAction -> string)
    (service : string) (action : ServiceAction)
    (package : string) (pkgAction : pkgaction.PackageAction) :
  (forall (st : St Part000.CentosProvisioner),
     log (fst (Service respond ServiceAction_String service action st)) <>
     log (fst (Part000.Package respond package pkgAction st))) /\
  (forall (st : St CentosGo.CentosProvisioner),
     log (fst (Service respond ServiceAction_String service action st)) <>
     log (fst (CentosGo.Package respond package pkgAction st))).
Proof.
  split; intros st H; rewrite Service_single_call in H;
    [unfold Part000.Package, Part000.SSHCommand in H
    |unfold CentosGo.Package, CentosGo.SSHCommand in H];
    rewrite call_eq in H; cbn [fst log] in H;
    apply app_inv_head in H; injection H as H; discriminate H.
Qed.

(** Witness of X17: the sample channel on which the installation of curl
    fails. *)
Lemma Part000_failed_install_skips_firewall_witness :
  let run :=
    Part000.Provision curlFails 3 quotePlain Part000.GetAuthOptions
      swarm_zero auth_zero engine_zero
      (mkSt (Part000.NewCentosProvisioner sampleDriver) []) in
  let install := RunSSHCommandFromDriver (installCommand "curl") in
  let before :=
    map RunSSHCommandFromDriver
      ([sudoersFixCommand] ++ hostnameCommands quotePlain "node1"
       ++ ["yum -y update"]) in
  log (fst run) = [] ++ before ++ install :: [] /\
  curlFails ([] ++ before) install =
    Some (CommandExecutionError "exit status 1") /\
  snd run = inl (CommandExecutionError "exit status 1") /\
  @nil Event = [] /\
  ~ In (RunSSHCommandFromDriver firewalldCommand) (before ++ [install]).
Proof.
  split; [reflexivity|]. split; [reflexivity|].
  apply (Part000_failed_install_skips_firewall curlFails 3 quotePlain
           Part000.GetAuthOptions swarm_zero auth_zero engine_zero
           (mkSt (Part000.NewCentosProvisioner sampleDriver) [])
           "curl"
           (map RunSSHCommandFromDriver
              ([sudoersFixCommand] ++ hostnameCommands quotePlain "node1"
               ++ ["yum -y update"]))
           [] (CommandExecutionError "exit status 1"));
    reflexivity.
Defined.
